(** * SOCKS 4 / 4A proxy server (cccxg/socks4): wire codec and session handler

    A shallow embedding of [protocol.go] (request decoding, reply encoding)
    and of [server.go] (the handshake of one session and the accept loop),
    followed by the properties of the specification that were checked
    against it.

    Conventions.  A Go [byte] is a [Byte.byte]; a [[]byte] is a
    [list byte] (the nil slice is [[]]); a Go [string] is a [string]
    (both are sequences of 8-bit characters); a Go [int] is a [Z]; a Go
    [error] is its message, and a nil error is [None]. *)

From Stdlib Require Import ZArith List String Ascii Lia Bool DecimalString.
From Stdlib.Strings Require Import Byte.
Import ListNotations.

Open Scope Z_scope.
Open Scope string_scope.
Open Scope list_scope.

(** ** The pieces of Go and of its standard library that the code uses *)

Module Go.

(** [error]: the message of the error. *)
Definition error : Type := string.

(** [errors.New]. *)
Definition errors_New (msg : string) : error := msg.

(** [b == c] on bytes. *)
Definition beq (b c : byte) : bool := Byte.eqb b c.

(** [b != c] on bytes. *)
Definition bne (b c : byte) : bool := negb (Byte.eqb b c).

(** The value of a byte as an integer, [int(b)] or [uint16(b)]. *)
Definition byteZ (b : byte) : Z := Z.of_N (Byte.to_N b).

(** The conversion [byte(v)] of an integer: its low eight bits. *)
Definition byte_of_Z (v : Z) : byte :=
  match Byte.of_N (Z.to_N (v mod 256)) with
  | Some b => b
  | None => x00
  end.

(** The conversion [uint16(v)] of an [int]: its low sixteen bits. *)
Definition uint16 (v : Z) : Z := v mod 65536.

(** [b[i]], for an index that the caller has checked to be in range. *)
Definition idx (b : list byte) (i : nat) : byte := nth i b x00.

(** [b[lo:hi]], for [lo <= hi <= len(b)]. *)
Definition slice (b : list byte) (lo hi : nat) : list byte :=
  firstn (hi - lo) (skipn lo b).

(** [string(b)]. *)
Definition string_of_bytes (b : list byte) : string := string_of_list_byte b.

(** [binary.BigEndian.Uint16(b)]:
    [uint16(b[1]) | uint16(b[0])<<8]. *)
Definition BigEndian_Uint16 (b : list byte) : Z :=
  Z.lor (byteZ (idx b 1)) (Z.shiftl (byteZ (idx b 0)) 8).

(** [binary.BigEndian.AppendUint16(b, v)]:
    [append(b, byte(v>>8), byte(v))]. *)
Definition BigEndian_AppendUint16 (b : list byte) (v : Z) : list byte :=
  b ++ [byte_of_Z (Z.shiftr v 8); byte_of_Z v].

(** [strconv.Itoa]: the decimal numeral of an integer, with a minus sign
    when negative and without leading zeros. *)
Definition Itoa (v : Z) : string := NilZero.string_of_int (Z.to_int v).

(** [bytes.Split(s, []byte{sep})] for a separator of one byte: the
    segments of [s] between the occurrences of [sep]; one more segment
    than there are occurrences. *)
Fixpoint bytes_Split (s : list byte) (sep : byte) : list (list byte) :=
  match s with
  | [] => [[]]
  | c :: s' =>
      if beq c sep then [] :: bytes_Split s' sep
      else match bytes_Split s' sep with
           | [] => [[c]]
           | seg :: segs => (c :: seg) :: segs
           end
  end.

(** [net.IP]: a slice of bytes, of length 4 or 16 when it is an
    address, nil when absent. *)
Definition IP : Type := list byte.

Definition IPv4len : nat := 4.
Definition IPv6len : nat := 16.

(** [isZeros] of package net. *)
Definition isZeros (p : list byte) : bool := forallb (fun c => beq c x00) p.

(** [IP.To4]: the 4-byte form of an IPv4 address, nil when [ip] is not
    an IPv4 address. *)
Definition To4 (ip : IP) : IP :=
  if Nat.eqb (List.length ip) IPv4len then ip
  else if Nat.eqb (List.length ip) IPv6len
          && isZeros (slice ip 0 10)
          && beq (idx ip 10) xff
          && beq (idx ip 11) xff
       then slice ip 12 16
       else [].

(** [net.IPv4(a, b, c, d)]: the 16-byte form of the address. *)
Definition IPv4 (a b c d : byte) : IP :=
  [x00; x00; x00; x00; x00; x00; x00; x00; x00; x00; xff; xff; a; b; c; d].

(** The dotted notation of a 4-byte address. *)
Definition dotted (p4 : list byte) : string :=
  Itoa (byteZ (idx p4 0)) ++ "." ++ Itoa (byteZ (idx p4 1)) ++ "." ++
  Itoa (byteZ (idx p4 2)) ++ "." ++ Itoa (byteZ (idx p4 3)).

(** [IP.String] on an address that has a 4-byte form (the only use the
    codec makes of it): the dotted notation of [ip.To4()]. *)
Definition IP_String (ip : IP) : string := dotted (To4 ip).

End Go.

Import Go.

(** ** protocol.go *)

Definition Version4 : byte := x04.

Definition CmdConnect : byte := x01.
Definition CmdBind : byte := x02.

Definition Granted : byte := x5a.
Definition RejectOrFailure : byte := x5b.
Definition RejectNoIdentd : byte := x5c.
Definition RejectWrongUserId : byte := x5d.

Definition NullByte : byte := x00.

Module Request.

(** A [Request] is a SOCKS proxy request sent from the client. *)
Record t : Type := mk {
  Version : byte;
  Cmd : byte;
  Port : Z;
  Address : string;
  IsV4A : bool;
  UserId : string
}.

(** The zero value of the struct, which a named result starts from. *)
Definition zero : t := mk x00 x00 0 "" false "".

Definition with_Version (r : t) (v : byte) : t :=
  mk v (Cmd r) (Port r) (Address r) (IsV4A r) (UserId r).
Definition with_Cmd (r : t) (v : byte) : t :=
  mk (Version r) v (Port r) (Address r) (IsV4A r) (UserId r).
Definition with_Port (r : t) (v : Z) : t :=
  mk (Version r) (Cmd r) v (Address r) (IsV4A r) (UserId r).
Definition with_Address (r : t) (v : string) : t :=
  mk (Version r) (Cmd r) (Port r) v (IsV4A r) (UserId r).
Definition with_IsV4A (r : t) (v : bool) : t :=
  mk (Version r) (Cmd r) (Port r) (Address r) v (UserId r).
Definition with_UserId (r : t) (v : string) : t :=
  mk (Version r) (Cmd r) (Port r) (Address r) (IsV4A r) v.

End Request.

(** [ParseRequest(b []byte) (req Request, err error)].  The results are
    named: on an error the request returned is the one filled so far. *)
Definition ParseRequest (b : list byte) : Request.t * option error :=
  let req := Request.zero in
  let n := List.length b in
  if Nat.ltb n 9 then
    (req, Some (errors_New "invalid SOCKS 4 request"))
  else
  let version := idx b 0 in
  if bne version Version4 then
    (req, Some (errors_New "invalid SOCKS request VN"))
  else
  let req := Request.with_Version req Version4 in
  let cmd := idx b 1 in
  if bne cmd CmdConnect && bne cmd CmdBind then
    (req, Some (errors_New "invalid SOCKS request CD"))
  else
  let req := Request.with_Cmd req cmd in
  let req := Request.with_Port req (BigEndian_Uint16 (slice b 2 4)) in
  if beq (idx b 4) x00 && beq (idx b 5) x00 && beq (idx b 6) x00
     && bne (idx b 7) x00
  then
    (* SOCKS 4A *)
    let req := Request.with_IsV4A req true in
    let bs := bytes_Split (skipn 8 b) NullByte in
    if negb (Nat.eqb (List.length bs) 3) then
      (req, Some (errors_New "invalid SOCKS 4A request"))
    else
    let req := Request.with_UserId req (string_of_bytes (nth 0 bs [])) in
    let domainName := string_of_bytes (nth 1 bs []) in
    let req :=
      Request.with_Address req (domainName ++ ":" ++ Itoa (Request.Port req)) in
    (req, None)
  else
    (* SOCKS 4 *)
    let req := Request.with_IsV4A req false in
    let ip := IP_String (IPv4 (idx b 4) (idx b 5) (idx b 6) (idx b 7)) in
    let req := Request.with_Address req (ip ++ ":" ++ Itoa (Request.Port req)) in
    let req := Request.with_UserId req (string_of_bytes (slice b 8 (n - 1))) in
    (req, None).

Module Reply.

(** A [Reply] is the message that the server sends back. *)
Record t : Type := mk {
  Cd : byte;
  Port : Z;
  IP : Go.IP
}.

(** [func (r Reply) ToBytes() []byte]. *)
Definition ToBytes (r : t) : list byte :=
  let b := [x00] in
  let b :=
    if bne (Cd r) Granted && bne (Cd r) RejectOrFailure
       && bne (Cd r) RejectNoIdentd && bne (Cd r) RejectWrongUserId
    then b ++ [RejectOrFailure]
    else b ++ [Cd r] in
  let b := BigEndian_AppendUint16 b (uint16 (Port r)) in
  let ip := To4 (IP r) in
  b ++ ip.

End Reply.

(** The error kinds of the specification, as the errors of the code. *)
Definition MalformedRequest : error := "invalid SOCKS 4 request".
Definition UnsupportedVersion : error := "invalid SOCKS request VN".
Definition UnsupportedCommand : error := "invalid SOCKS request CD".
Definition MalformedExtendedRequest : error := "invalid SOCKS 4A request".

(** The test that selects the domain-name extension: an address
    [0.0.0.x] with [x] non-zero. *)
Definition extension_sentinel (b : list byte) : Prop :=
  idx b 4 = x00 /\ idx b 5 = x00 /\ idx b 6 = x00 /\ idx b 7 <> x00.

(** The port that a message of at least four bytes carries. *)
Definition wire_port (b : list byte) : Z :=
  256 * byteZ (idx b 2) + byteZ (idx b 3).

(** The status byte that a reply carries on the wire. *)
Definition sanitized (cd : byte) : byte :=
  if beq cd x5a || beq cd x5b || beq cd x5c || beq cd x5d then cd else x5b.

(** ** The transport and logging capabilities that server.go consumes *)

(** Connections and listeners of the environment are named by numbers.
    A value of interface type [net.Conn] or [net.Listener] is either
    nil ([None]) or one of them. *)
Definition ConnId : Type := nat.
Definition LisId : Type := nat.
Definition Conn : Type := option ConnId.
Definition Listener : Type := option LisId.

Module TCPAddr.
(** [net.TCPAddr], the fields that the server reads. *)
Record t : Type := mk { IP : Go.IP; Port : Z }.
End TCPAddr.

Inductive Level : Type := Debug | Info | Warn.

(** What a run does to its environment, in order. *)
Inductive Event : Type :=
| EvRead (c : ConnId) (cap : nat) (res : list byte + error)
| EvWrite (c : ConnId) (data : list byte) (res : option error)
| EvCloseConn (c : ConnId)
| EvDial (address : string) (res : ConnId + error)
| EvListen (address : string) (res : LisId + error)
| EvAccept (l : LisId) (res : ConnId + error)
| EvCloseLis (l : LisId)
| EvGoTimer (l : LisId) (seconds : Z)
| EvTimerFired (l : LisId)
| EvLog (lvl : Level) (format : string)
| EvWgAdd
| EvWgDone
| EvWgWait
| EvTransfer (client remote : ConnId).

(** The answers of the environment.  They are fixed for a run; the
    program chooses which questions it asks. *)
Record Net : Type := {
  (** [net.Dial("tcp", address)]. *)
  dial : string -> ConnId + error;
  (** [net.Listen("tcp", address)]. *)
  listen : string -> LisId + error;
  (** [net.ResolveTCPAddr("tcp", lis.Addr().String())]. *)
  lis_addr : LisId -> TCPAddr.t + error;
  (** The inbound connection that reaches a listener of a BIND session
      before its time limit; [None] when none does. *)
  inbound : LisId -> option ConnId;
  (** [net.ResolveTCPAddr("tcp", c.LocalAddr().String())]. *)
  local_addr : ConnId -> TCPAddr.t + error;
  (** The outcome of the [k]-th write on a connection, from 0. *)
  write_err : ConnId -> nat -> option error
}.

(** The state that a run changes: the bytes that have reached each
    connection and were not read yet, one element per fragment as it
    arrived; the fields of the [Server] struct; the events so far. *)
Record World : Type := {
  inbox : ConnId -> list (list byte);
  srv_lis : Listener;
  srv_closed : bool;
  trace : list Event
}.

Definition with_inbox (w : World) (i : ConnId -> list (list byte)) : World :=
  Build_World i (srv_lis w) (srv_closed w) (trace w).
Definition with_lis (w : World) (l : Listener) : World :=
  Build_World (inbox w) l (srv_closed w) (trace w).
Definition with_closed (w : World) (c : bool) : World :=
  Build_World (inbox w) (srv_lis w) c (trace w).
Definition with_trace (w : World) (t : list Event) : World :=
  Build_World (inbox w) (srv_lis w) (srv_closed w) t.

(** How a call ends: it returns; it panics, and the deferred calls of
    its goroutine run while the panic unwinds; or the whole process has
    ended, because a panic reached the top of a goroutine. *)
Inductive Outcome (A : Type) : Type :=
| Done (a : A)
| Panic (msg : string)
| Crash (msg : string).
Arguments Done {A} a.
Arguments Panic {A} msg.
Arguments Crash {A} msg.

Definition M (A : Type) : Type := World -> Outcome A * World.

Definition ret {A : Type} (a : A) : M A := fun w => (Done a, w).

Definition bind {A B : Type} (m : M A) (k : A -> M B) : M B :=
  fun w =>
    match m w with
    | (Done a, w') => k a w'
    | (Panic msg, w') => (Panic msg, w')
    | (Crash msg, w') => (Crash msg, w')
    end.

Declare Scope go_scope.
Delimit Scope go_scope with go.
Notation "x <- m ;; k" := (bind m (fun x => k))
  (at level 61, m at next level, right associativity) : go_scope.
Notation "' p <- m ;; k" := (bind m (fun x => let p := x in k))
  (at level 61, p pattern, m at next level, right associativity) : go_scope.
Notation "m ;; k" := (bind m (fun _ => k))
  (at level 61, right associativity) : go_scope.
Open Scope go_scope.

Definition emit (e : Event) : M unit :=
  fun w => (Done tt, with_trace w (trace w ++ [e])).

Definition panic {A : Type} (msg : string) : M A := fun w => (Panic msg, w).

(** The panic of a method call on a nil interface value. *)
Definition nil_dereference : string :=
  "runtime error: invalid memory address or nil pointer dereference".

(** [defer d] followed by [body]: [d] runs when [body] returns and when
    it panics; it does not run when the process has ended. *)
Definition defer {A : Type} (d : M unit) (body : M A) : M A :=
  fun w =>
    match body w with
    | (Done a, w') =>
        match d w' with
        | (Done _, w'') => (Done a, w'')
        | (Panic msg, w'') => (Panic msg, w'')
        | (Crash msg, w'') => (Crash msg, w'')
        end
    | (Panic msg, w') =>
        match d w' with
        | (Done _, w'') => (Panic msg, w'')
        | (Panic msg', w'') => (Panic msg', w'')
        | (Crash msg', w'') => (Crash msg', w'')
        end
    | (Crash msg, w') => (Crash msg, w')
    end.

(** [go f()], scheduled to run to its end where it is started.  A panic
    that nothing recovered ends the process. *)
Definition go (f : M unit) : M unit :=
  fun w =>
    match f w with
    | (Done _, w') => (Done tt, w')
    | (Panic msg, w') => (Crash msg, w')
    | (Crash msg, w') => (Crash msg, w')
    end.

(** [%v] of an error in a format. *)
Definition fmt_v (e : option error) : string :=
  match e with
  | Some msg => msg
  | None => "<nil>"
  end.

(** [fmt.Errorf(prefix + "%v", e)]. *)
Definition Errorf (prefix : string) (e : option error) : error :=
  (prefix ++ fmt_v e)%string.

(** Modelled from the spec: the [Logger] capability, whose declaration
    is not among the sources: "leveled sink accepting formatted
    info/warn/debug messages". *)
Definition Debugf (format : string) : M unit := emit (EvLog Debug format).
Definition Infof (format : string) : M unit := emit (EvLog Info format).
Definition Warnf (format : string) : M unit := emit (EvLog Warn format).

(** The number of writes on a connection so far. *)
Fixpoint writes_on (c : ConnId) (t : list Event) : nat :=
  match t with
  | [] => 0
  | EvWrite c' _ _ :: t' =>
      if Nat.eqb c' c then S (writes_on c t') else writes_on c t'
  | _ :: t' => writes_on c t'
  end.

Definition io_EOF : error := "EOF".
Definition ErrClosed : error := "use of closed network connection".

(** ** server.go *)

Section Server.

Variable net : Net.

(** *** Methods of [net.Conn] and [net.Listener], and package net *)

(** [conn.Read(b)] with [len(b) = cap]; the result is [b[:n]] and the
    error.  A read takes bytes from the first fragment only, up to the
    capacity of the buffer; the bytes of that fragment that did not
    fit stay first in the inbox. *)
Definition Conn_Read (conn : Conn) (cap : nat)
  : M (list byte * option error) :=
  match conn with
  | None => panic nil_dereference
  | Some c => fun w =>
      match inbox w c with
      | [] =>
          (Done ([], Some io_EOF),
           with_trace w (trace w ++ [EvRead c cap (inr io_EOF)]))
      | f :: fs =>
          let got := firstn cap f in
          let left :=
            match skipn cap f with
            | [] => fs
            | rest => rest :: fs
            end in
          (Done (got, None),
           with_trace
             (with_inbox w (fun c' => if Nat.eqb c' c then left
                                      else inbox w c'))
             (trace w ++ [EvRead c cap (inl got)]))
      end
  end.

(** [conn.Write(data)]; the result is the error. *)
Definition Conn_Write (conn : Conn) (data : list byte) : M (option error) :=
  match conn with
  | None => panic nil_dereference
  | Some c => fun w =>
      let res := write_err net c (writes_on c (trace w)) in
      (Done res, with_trace w (trace w ++ [EvWrite c data res]))
  end.

(** [conn.Close()]; no caller looks at its result. *)
Definition Conn_Close (conn : Conn) : M unit :=
  match conn with
  | None => panic nil_dereference
  | Some c => emit (EvCloseConn c)
  end.

(** [conn.RemoteAddr()], which stands for the connection in a log. *)
Definition Conn_RemoteAddr (conn : Conn) : M ConnId :=
  match conn with
  | None => panic nil_dereference
  | Some c => ret c
  end.

(** [net.ResolveTCPAddr("tcp", conn.LocalAddr().String())]. *)
Definition Conn_LocalAddr (conn : Conn) : M (TCPAddr.t + error) :=
  match conn with
  | None => panic nil_dereference
  | Some c => ret (local_addr net c)
  end.

(** [lis.Close()]. *)
Definition Listener_Close (lis : Listener) : M unit :=
  match lis with
  | None => panic nil_dereference
  | Some l => emit (EvCloseLis l)
  end.

(** [net.ResolveTCPAddr("tcp", lis.Addr().String())]. *)
Definition Listener_Addr (lis : Listener) : M (TCPAddr.t + error) :=
  match lis with
  | None => panic nil_dereference
  | Some l => ret (lis_addr net l)
  end.

(** [net.Dial("tcp", address)]. *)
Definition net_Dial (address : string) : M (Conn * option error) :=
  emit (EvDial address (dial net address)) ;;
  match dial net address with
  | inl c => ret (Some c, None)
  | inr err => ret (None, Some err)
  end.

(** [net.Listen("tcp", address)]. *)
Definition net_Listen (address : string) : M (Listener * option error) :=
  emit (EvListen address (listen net address)) ;;
  match listen net address with
  | inl l => ret (Some l, None)
  | inr err => ret (None, Some err)
  end.

(** The goroutine that [establishBind] starts:
    [time.Sleep(120 * time.Second); lis.Close()]. *)
Definition bind_timer (lis : Listener) (l : LisId) : M unit :=
  emit (EvTimerFired l) ;;
  Listener_Close lis.

(** [lis.Accept()] in [establishBind], the timer goroutine pending.
    It returns the inbound connection when one arrives in time;
    otherwise nothing wakes it but the timer, which closes the
    listener, and it fails. *)
Definition Listener_Accept (lis : Listener) : M (Conn * option error) :=
  match lis with
  | None => panic nil_dereference
  | Some l =>
      match inbound net l with
      | Some c => emit (EvAccept l (inl c)) ;; ret (Some c, None)
      | None =>
          go (bind_timer lis l) ;;
          emit (EvAccept l (inr ErrClosed)) ;;
          ret (None, Some ErrClosed)
      end
  end.

(** *** The session handler *)

(** [establishConnect]: one dial, no retry. *)
Definition establishConnect (conn : Conn) (req : Request.t)
  : M (Conn * option error) :=
  '(remote, err) <- net_Dial (Request.Address req) ;;
  match err with
  | Some e => ret (None, Some e)
  | None => ret (remote, None)
  end.

(** [establishBind]. *)
Definition establishBind (conn : Conn) (req : Request.t)
  : M (Conn * option error) :=
  '(lis, err) <- net_Listen "" ;;
  match err with
  | Some e => ret (None, Some e)
  | None =>
      defer (Listener_Close lis)
        (a <- Listener_Addr lis ;;
         match a with
         | inr e => ret (None, Some e)
         | inl addr =>
             (* first reply *)
             werr <- Conn_Write conn
                       (Reply.ToBytes
                          (Reply.mk Granted (TCPAddr.Port addr) [])) ;;
             match werr with
             | Some e => ret (None, Some e)
             | None =>
                 (* max time for listening remote *)
                 match lis with
                 | Some l => emit (EvGoTimer l 120)
                 | None => ret tt
                 end ;;
                 '(remote, err) <- Listener_Accept lis ;;
                 match err with
                 | Some e => ret (None, Some e)
                 | None => ret (remote, None)
                 end
             end
         end)
  end.

(** [establishProxy]. *)
Definition establishProxy (conn : Conn) : M (Conn * option error) :=
  '(b, err) <- Conn_Read conn 41 ;;
  match err with
  | Some e => ret (None, Some (Errorf "failed to read from connect: " err))
  | None =>
  _ <- Conn_RemoteAddr conn ;;
  Debugf "read request from client %v: %v" ;;
  let '(req, err) := ParseRequest b in
  match err with
  | Some e => ret (None, Some e)
  | None =>
  (* the statements after the if-else chain on the command *)
  let granted (remote : Conn) : M (Conn * option error) :=
    a <- Conn_LocalAddr remote ;;
    match a with
    | inr e => Conn_Close remote ;; ret (None, Some e)
    | inl addr =>
        let rep :=
          Reply.ToBytes
            (Reply.mk Granted (TCPAddr.Port addr) (To4 (TCPAddr.IP addr))) in
        err <- Conn_Write conn rep ;;
        match err with
        | Some e => Conn_Close remote ;; ret (None, Some e)
        | None => ret (remote, None)
        end
    end in
  if beq (Request.Cmd req) CmdConnect then
    '(remote, err) <- establishConnect conn req ;;
    match err with
    | Some _ =>
        wErr <- Conn_Write conn
                  (Reply.ToBytes (Reply.mk RejectOrFailure 0 [])) ;;
        match err with   (* the code tests err here, not wErr *)
        | Some _ =>
            Conn_Close remote ;;
            ret (None, Some (Errorf "failed to reply to client: " wErr))
        | None =>
            ret (None,
                 Some (Errorf
                   "failed to establish connect for CONNECT request: " err))
        end
    | None => granted remote
    end
  else if beq (Request.Cmd req) CmdBind then
    '(remote, err) <- establishBind conn req ;;
    match err with
    | Some _ =>
        wErr <- Conn_Write conn
                  (Reply.ToBytes (Reply.mk RejectOrFailure 0 [])) ;;
        match wErr with
        | Some _ =>
            Conn_Close remote ;;
            ret (None, Some (Errorf "failed to reply to client: " wErr))
        | None =>
            ret (None,
                 Some (Errorf
                   "failed to establish connect for BIND request: " err))
        end
    | None => granted remote
    end
  else
    ret (None,
         Some ("unexpected error: got a request with operation command "
               ++ Itoa (byteZ (Request.Cmd req)))%string)
  end
  end.

(** [transfer]: the relay.  Its two copying goroutines and the wait
    for both are one event; the bytes relayed are not modelled. *)
Definition transfer (client remote : Conn) : M unit :=
  cliAddr <- Conn_RemoteAddr client ;;
  remoteAddr <- Conn_RemoteAddr remote ;;
  Infof "begin transfer data between client %v and remote host %v" ;;
  emit (EvTransfer cliAddr remoteAddr) ;;
  Infof "stop transfer data between client %v and remote host %v".

(** [handleConn]. *)
Definition handleConn (conn : Conn) : M unit :=
  defer (Conn_Close conn)
    (defer (emit EvWgDone)
       ('(remote, err) <- establishProxy conn ;;
        match err with
        | Some _ => Warnf "establish proxy error: %v"
        | None =>
            defer (Conn_Close remote)
              (_ <- Conn_RemoteAddr conn ;;
               _ <- Conn_RemoteAddr remote ;;
               Infof "proxy conn for client %v to target %v established" ;;
               transfer conn remote)
        end)).

(** *** The server *)

(** What happens at the listening socket of the server, in order: a
    client connects, [Accept] fails, or [ShutDown] is called. *)
Inductive Arrival : Type :=
| Incoming (c : ConnId)
| AcceptError (e : error)
| ShutDownCalled.

Inductive RunResult : Type :=
| Accepting
| Returned (e : error).

(** [ShutDown]. *)
Definition ShutDown : M (option error) :=
  fun w =>
    match srv_lis w with
    | None =>
        (Done (Some (errors_New
           "can't shut down a server that has not been started")), w)
    | Some l =>
        (emit (EvCloseLis l) ;;
         Infof
           "server is shut down, waiting for existing connections to complete" ;;
         emit EvWgWait ;;
         Infof "all connections are complete" ;;
         ret None) (with_closed w true)
    end.

(** The branch of the loop of [Run] for a failed [Accept]: the loop
    ends when the server is closed and goes on otherwise. *)
Definition accept_failed (l : LisId) (e : error) (continue : M RunResult)
  : M RunResult :=
  emit (EvAccept l (inr e)) ;;
  fun w =>
    if srv_closed w then
      (Done (Returned (errors_New "listencer closed")), w)
    else (Warnf "listener accept error: %v" ;; continue) w.

(** The loop of [Run].  When the arrivals are used up the loop is
    waiting in [Accept].  A call of [ShutDown], made by another
    goroutine, closes the listener, which makes [Accept] fail. *)
Fixpoint accept_loop (l : LisId) (arrivals : list Arrival) : M RunResult :=
  match arrivals with
  | [] => ret Accepting
  | Incoming c :: rest =>
      emit (EvAccept l (inl c)) ;;
      Infof "accept connection from: %v" ;;
      emit EvWgAdd ;;
      go (handleConn (Some c)) ;;
      accept_loop l rest
  | AcceptError e :: rest =>
      accept_failed l e (accept_loop l rest)
  | ShutDownCalled :: rest =>
      go (_ <- ShutDown ;; ret tt) ;;
      accept_failed l ErrClosed (accept_loop l rest)
  end.

(** [Run]. *)
Definition Run (address : string) (arrivals : list Arrival) : M RunResult :=
  '(lis, err) <- net_Listen address ;;
  match lis, err with
  | _, Some e => ret (Returned e)
  | None, None => panic nil_dereference
  | Some l, None =>
      (fun w => (Done tt, with_closed (with_lis w lis) false)) ;;
      defer (Listener_Close lis)
        (Infof "SOCKS server listen on %v" ;;
         accept_loop l arrivals)
  end.

End Server.

(** ** Notions that the properties are stated with *)

(** The world after more events. *)
Definition record (es : list Event) (w : World) : World :=
  with_trace w (trace w ++ es).

(** Whether an event is a read. *)
Definition is_read (e : Event) : bool :=
  match e with
  | EvRead _ _ _ => true
  | _ => false
  end.

(** The messages that were written to a connection, in order. *)
Fixpoint sent_to (c : ConnId) (t : list Event) : list (list byte) :=
  match t with
  | [] => []
  | EvWrite c' data None :: t' =>
      if Nat.eqb c' c then data :: sent_to c t' else sent_to c t'
  | _ :: t' => sent_to c t'
  end.

(** What a read leaves in the inbox of a connection whose first
    fragment is [f]. *)
Definition unread (cap : nat) (f : list byte) (fs : list (list byte))
  : list (list byte) :=
  match skipn cap f with
  | [] => fs
  | rest => rest :: fs
  end.

(** A computation that reads nothing: it leaves every inbox as it is,
    adds no read to the trace, and runs the same whatever the inboxes
    hold. *)
Definition quiet {A : Type} (m : M A) : Prop :=
  forall w : World,
    inbox (snd (m w)) = inbox w /\
    (exists es : list Event,
        trace (snd (m w)) = trace w ++ es /\
        Forall (fun e => is_read e = false) es) /\
    (forall i, m (with_inbox w i) = (fst (m w), with_inbox (snd (m w)) i)).

(** ** An environment and clients to run the server on *)

Module Fixture.

(** The host 7.7.7.7 refuses connections; every other dial gives
    connection 7, whose local address is 10.0.0.1:51000.  Listening
    gives listener 3 on port 40000, which nothing connects to.  Every
    write succeeds. *)
Definition net : Net := {|
  dial := fun address =>
    if String.eqb address "7.7.7.7:80" then inr "connection refused"
    else inl 7%nat;
  listen := fun _ => inl 3%nat;
  lis_addr := fun _ => inl (TCPAddr.mk (repeat x00 16) 40000);
  inbound := fun _ => None;
  local_addr := fun _ => inl (TCPAddr.mk [x0a; x00; x00; x01] 51000);
  write_err := fun _ _ => None
|}.

(** The same environment, but the second write on every connection
    fails. *)
Definition net_broken_pipe : Net := {|
  dial := dial net;
  listen := listen net;
  lis_addr := lis_addr net;
  inbound := inbound net;
  local_addr := local_addr net;
  write_err := fun _ k =>
    match k with
    | 1%nat => Some "broken pipe"
    | _ => None
    end
|}.

(** CONNECT to 7.7.7.7:80, CONNECT to 8.8.8.8:80, BIND. *)
Definition connect7 : list byte :=
  [x04; x01; x00; x50; x07; x07; x07; x07; x00].
Definition connect8 : list byte :=
  [x04; x01; x00; x50; x08; x08; x08; x08; x00].
Definition bind1 : list byte :=
  [x04; x02; x00; x50; x0a; x00; x00; x02; x00].

(** Client 1 has sent [connect7], client 2 [connect8], client 4
    [bind1]; nothing has happened yet. *)
Definition world : World := {|
  inbox := fun c =>
    match c with
    | 1%nat => [connect7]
    | 2%nat => [connect8]
    | 4%nat => [bind1]
    | _ => []
    end;
  srv_lis := None;
  srv_closed := false;
  trace := []
|}.

(** A CONNECT request for a domain name, of 50 bytes, which reaches
    the server in one piece, and the same in two pieces. *)
Definition long_request : list byte :=
  [x04; x01; x00; x50; x00; x00; x00; x01; x00]
  ++ list_byte_of_string "a-host-name-of-forty-bytes.example.com__"
  ++ [x00].

Definition world_long (fragments : list (list byte)) : World := {|
  inbox := fun _ => fragments;
  srv_lis := None;
  srv_closed := false;
  trace := []
|}.

End Fixture.

(** ** Notions for the further properties *)

(** The outcome of the decoder in each of its six cases. *)
Inductive ParseCase (b : list byte) : Request.t * option error -> Prop :=
| PcShort :
    (List.length b < 9)%nat ->
    ParseCase b (Request.zero, Some MalformedRequest)
| PcVersion :
    (9 <= List.length b)%nat -> idx b 0 <> x04 ->
    ParseCase b (Request.zero, Some UnsupportedVersion)
| PcCommand :
    (9 <= List.length b)%nat -> idx b 0 = x04 ->
    idx b 1 <> x01 -> idx b 1 <> x02 ->
    ParseCase b (Request.mk x04 x00 0 "" false "", Some UnsupportedCommand)
| PcSegments :
    (9 <= List.length b)%nat -> idx b 0 = x04 ->
    idx b 1 = x01 \/ idx b 1 = x02 ->
    extension_sentinel b ->
    List.length (bytes_Split (skipn 8 b) x00) <> 3%nat ->
    ParseCase b (Request.mk x04 (idx b 1) (wire_port b) "" true "",
                 Some MalformedExtendedRequest)
| PcExtended (identity domainName trailing : list byte) :
    (9 <= List.length b)%nat -> idx b 0 = x04 ->
    idx b 1 = x01 \/ idx b 1 = x02 ->
    extension_sentinel b ->
    bytes_Split (skipn 8 b) x00 = [identity; domainName; trailing] ->
    ParseCase b
      (Request.mk x04 (idx b 1) (wire_port b)
         (string_of_bytes domainName ++ ":" ++ Itoa (wire_port b))
         true (string_of_bytes identity),
       None)
| PcLiteral :
    (9 <= List.length b)%nat -> idx b 0 = x04 ->
    idx b 1 = x01 \/ idx b 1 = x02 ->
    ~ extension_sentinel b ->
    ParseCase b
      (Request.mk x04 (idx b 1) (wire_port b)
         (dotted [idx b 4; idx b 5; idx b 6; idx b 7] ++ ":"
          ++ Itoa (wire_port b))
         false (string_of_bytes (slice b 8 (List.length b - 1))),
       None).


(** The sum of a measure over events. *)
Definition weight (mu : Event -> nat) (es : list Event) : nat :=
  list_sum (map mu es).

(** A computation that stays within a budget: it leaves the fields of
    the server as they are, it does not end the process, and the events
    it adds weigh at most [n]. *)
Definition tame (mu : Event -> nat) (n : nat) {A : Type} (m : M A) : Prop :=
  forall w : World,
    srv_lis (snd (m w)) = srv_lis w /\
    srv_closed (snd (m w)) = srv_closed w /\
    (forall msg : string, fst (m w) <> Crash msg) /\
    exists es : list Event,
      trace (snd (m w)) = trace w ++ es /\ (weight mu es <= n)%nat.

(** Measures: the dials, the listens, the accepts, the writes on a
    connection, the writes on the other connections, the releases of the
    wait group and its acquisitions. *)
Definition dials (e : Event) : nat :=
  match e with EvDial _ _ => 1 | _ => 0 end.
Definition listens (e : Event) : nat :=
  match e with EvListen _ _ => 1 | _ => 0 end.
Definition accepts (e : Event) : nat :=
  match e with EvAccept _ _ => 1 | _ => 0 end.
Definition writes_to (c : ConnId) (e : Event) : nat :=
  match e with
  | EvWrite c' _ _ => if Nat.eqb c' c then 1 else 0
  | _ => 0
  end.
Definition writes_elsewhere (c : ConnId) (e : Event) : nat :=
  match e with
  | EvWrite c' _ _ => if Nat.eqb c' c then 0 else 1
  | _ => 0
  end.
Definition wg_dones (e : Event) : nat :=
  match e with EvWgDone => 1 | _ => 0 end.
Definition wg_adds (e : Event) : nat :=
  match e with EvWgAdd => 1 | _ => 0 end.
Definition transfers (e : Event) : nat :=
  match e with EvTransfer _ _ => 1 | _ => 0 end.

(** Whether an event is a message of the logger. *)
Definition is_log (e : Event) : Prop :=
  exists (lvl : Level) (format : string), e = EvLog lvl format.

(** ** More environments to run the server on *)

Module Scenario.

(** As [Fixture.net], but connection 8 reaches every listener in
    time. *)
Definition net_inbound : Net := {|
  dial := dial Fixture.net;
  listen := listen Fixture.net;
  lis_addr := lis_addr Fixture.net;
  inbound := fun _ => Some 8%nat;
  local_addr := local_addr Fixture.net;
  write_err := write_err Fixture.net
|}.

(** As [Fixture.net], but nothing can be listened on. *)
Definition net_no_listen : Net := {|
  dial := dial Fixture.net;
  listen := fun _ => inr "too many open files";
  lis_addr := lis_addr Fixture.net;
  inbound := inbound Fixture.net;
  local_addr := local_addr Fixture.net;
  write_err := write_err Fixture.net
|}.

(** As [Fixture.net], but the first write on every connection fails. *)
Definition net_reply_lost : Net := {|
  dial := dial Fixture.net;
  listen := listen Fixture.net;
  lis_addr := lis_addr Fixture.net;
  inbound := inbound Fixture.net;
  local_addr := local_addr Fixture.net;
  write_err := fun _ k =>
    match k with
    | O => Some "broken pipe"
    | _ => None
    end
|}.

(** As [Fixture.net], but nothing can be listened on and the first
    write on every connection fails. *)
Definition net_no_listen_reply_lost : Net := {|
  dial := dial Fixture.net;
  listen := fun _ => inr "too many open files";
  lis_addr := lis_addr Fixture.net;
  inbound := inbound Fixture.net;
  local_addr := local_addr Fixture.net;
  write_err := fun _ k =>
    match k with
    | O => Some "broken pipe"
    | _ => None
    end
|}.

(** The requests of clients 2 and 4 of the fixture, decoded. *)
Definition request8 : Request.t :=
  Request.mk x04 x01 80 "8.8.8.8:80" false "".
Definition request_bind : Request.t :=
  Request.mk x04 x02 80 "10.0.0.2:80" false "".

(** The addresses of the fixture. *)
Definition local : TCPAddr.t := TCPAddr.mk [x0a; x00; x00; x01] 51000.
Definition listening : TCPAddr.t := TCPAddr.mk (repeat x00 16) 40000.

End Scenario.

(** ** Construction of the server *)

Module Config.

Section Logging.

(** Modelled from the spec: the [Logger] capability, whose declaration
    is not among the sources, as a type of loggers; [default_logger] is
    the console logger that [NewServer] builds. *)
Variable Logger : Type.
Variable default_logger : Logger.

(** The fields of [Server] that an option can set, the wait group
    apart; a nil interface value is [None]. *)
Record Server : Type := mk {
  logger : option Logger;
  lis : Listener;
  closed : bool
}.

(** [OptionFunc], a function that changes the server it is given. *)
Definition OptionFunc : Type := Server -> Server.

(** [WithLogger]. *)
Definition WithLogger (l : option Logger) : OptionFunc :=
  fun s => mk l (lis s) (closed s).

(** [NewServer]. *)
Definition NewServer (opts : list OptionFunc) : Server :=
  let srv := fold_left (fun s opt => opt s) opts (mk None None false) in
  match logger srv with
  | None => mk (Some default_logger) (lis srv) (closed srv)
  | Some _ => srv
  end.

End Logging.

End Config.

(** * Properties *)

(** ** Runs of the codec on concrete messages *)

Example parse_connect_7777 :
  ParseRequest [x04; x01; x00; x50; x07; x07; x07; x07; x00]
  = (Request.mk x04 x01 80 "7.7.7.7:80" false "", None).
Proof. reflexivity. Qed.

Example parse_4a :
  ParseRequest ([x04; x01; x01; xbb; x00; x00; x00; x01]
                ++ list_byte_of_string "bob" ++ [x00]
                ++ list_byte_of_string "example.org" ++ [x00])
  = (Request.mk x04 x01 443 "example.org:443" true "bob", None).
Proof. reflexivity. Qed.

Example reply_granted :
  Reply.ToBytes (Reply.mk Granted 8080 [x0a; x00; x00; x01])
  = [x00; x5a; x1f; x90; x0a; x00; x00; x01].
Proof. reflexivity. Qed.

(** ** Bytes, slices and the big-endian port *)

Lemma beq_eq (a b : byte) : beq a b = true <-> a = b.
Proof.
  unfold beq; split.
  - apply Byte.byte_dec_bl.
  - apply Byte.byte_dec_lb.
Qed.

Lemma beq_neq (a b : byte) : beq a b = false <-> a <> b.
Proof.
  rewrite <- beq_eq. destruct (beq a b); split; congruence.
Qed.

Lemma bne_eq (a b : byte) : bne a b = false <-> a = b.
Proof.
  unfold bne. rewrite negb_false_iff. apply beq_eq.
Qed.

Lemma bne_neq (a b : byte) : bne a b = true <-> a <> b.
Proof.
  unfold bne. rewrite negb_true_iff. apply beq_neq.
Qed.

Lemma byteZ_range (b : byte) : 0 <= byteZ b < 256.
Proof.
  unfold byteZ. pose proof (Byte.to_N_bounded b). lia.
Qed.

Lemma byteZ_of_Z (v : Z) : byteZ (byte_of_Z v) = v mod 256.
Proof.
  unfold byteZ, byte_of_Z.
  assert (R : 0 <= v mod 256 < 256) by (apply Z.mod_pos_bound; lia).
  destruct (Byte.of_N (Z.to_N (v mod 256))) as [b|] eqn:E.
  - apply Byte.to_of_N in E. rewrite E. apply Z2N.id. lia.
  - apply Byte.of_N_None_iff in E. lia.
Qed.

Lemma low_byte_disjoint (lo hi : Z) :
  0 <= lo < 256 -> Z.land lo (Z.shiftl hi 8) = 0.
Proof.
  intros R. apply Z.bits_inj'. intros n Hn.
  rewrite Z.land_spec, Z.bits_0.
  destruct (Z.lt_ge_cases n 8) as [Lt | Ge].
  - rewrite Z.shiftl_spec_low by lia. apply andb_false_r.
  - replace lo with (lo mod 2 ^ 8) by (apply Z.mod_small; lia).
    rewrite Z.mod_pow2_bits_high by lia. reflexivity.
Qed.

Lemma BigEndian_Uint16_value (hi lo : byte) (tl : list byte) :
  BigEndian_Uint16 (hi :: lo :: tl) = 256 * byteZ hi + byteZ lo.
Proof.
  unfold BigEndian_Uint16, idx. cbn [nth].
  pose proof (Z.add_lor_land (byteZ lo) (Z.shiftl (byteZ hi) 8)) as A.
  rewrite (low_byte_disjoint _ _ (byteZ_range lo)) in A.
  rewrite Z.shiftl_mul_pow2 in * by lia.
  change (2 ^ 8) with 256 in *. lia.
Qed.

Lemma slice_2_4 (b : list byte) :
  (4 <= List.length b)%nat -> slice b 2 4 = [idx b 2; idx b 3].
Proof.
  intros L. destruct b as [|b0 [|b1 [|b2 [|b3 tl]]]]; cbn in L; try lia.
  reflexivity.
Qed.

Lemma To4_IPv4 (a b c d : byte) : To4 (IPv4 a b c d) = [a; b; c; d].
Proof. reflexivity. Qed.

Lemma sentinel_test (b : list byte) :
  beq (idx b 4) x00 && beq (idx b 5) x00 && beq (idx b 6) x00
    && bne (idx b 7) x00 = true
  <-> extension_sentinel b.
Proof.
  unfold extension_sentinel.
  rewrite !andb_true_iff, !beq_eq, bne_neq. tauto.
Qed.

Lemma sentinel_test_false (b : list byte) :
  beq (idx b 4) x00 && beq (idx b 5) x00 && beq (idx b 6) x00
    && bne (idx b 7) x00 = false
  <-> ~ extension_sentinel b.
Proof.
  rewrite <- sentinel_test.
  destruct (beq (idx b 4) x00 && beq (idx b 5) x00 && beq (idx b 6) x00
            && bne (idx b 7) x00); split; congruence.
Qed.

Lemma command_test (cd : byte) :
  cd = CmdConnect \/ cd = CmdBind ->
  bne cd CmdConnect && bne cd CmdBind = false.
Proof.
  intros [-> | ->]; reflexivity.
Qed.

Lemma wire_port_range (b : list byte) : 0 <= wire_port b <= 65535.
Proof.
  unfold wire_port.
  pose proof (byteZ_range (idx b 2)). pose proof (byteZ_range (idx b 3)). lia.
Qed.

(** ** The decoder up to the choice between the two forms *)

(** A message with a good length, version and command is decoded by one
    of the two branches, chosen by the sentinel test. *)
Lemma ParseRequest_header (b : list byte) :
  (9 <= List.length b)%nat ->
  idx b 0 = Version4 ->
  idx b 1 = CmdConnect \/ idx b 1 = CmdBind ->
  ParseRequest b =
  let req := Request.mk Version4 (idx b 1) (wire_port b) "" false "" in
  if beq (idx b 4) x00 && beq (idx b 5) x00 && beq (idx b 6) x00
     && bne (idx b 7) x00
  then
    let req := Request.with_IsV4A req true in
    let bs := bytes_Split (skipn 8 b) NullByte in
    if negb (Nat.eqb (List.length bs) 3) then
      (req, Some (errors_New "invalid SOCKS 4A request"))
    else
      (Request.with_Address
         (Request.with_UserId req (string_of_bytes (nth 0 bs [])))
         (string_of_bytes (nth 1 bs []) ++ ":" ++ Itoa (wire_port b)),
       None)
  else
    (Request.mk Version4 (idx b 1) (wire_port b)
       (dotted [idx b 4; idx b 5; idx b 6; idx b 7] ++ ":"
        ++ Itoa (wire_port b))
       false
       (string_of_bytes (slice b 8 (List.length b - 1))),
     None).
Proof.
  intros L V C. unfold ParseRequest.
  destruct (Nat.ltb_spec (List.length b) 9) as [Lt | _]; [lia |].
  rewrite V. change (bne Version4 Version4) with false. cbv iota.
  rewrite (command_test _ C). cbv iota.
  rewrite slice_2_4 by lia. rewrite BigEndian_Uint16_value.
  fold (wire_port b). unfold IP_String. rewrite To4_IPv4.
  reflexivity.
Qed.

Lemma string_app_assoc (s t u : string) :
  ((s ++ t) ++ u = s ++ (t ++ u))%string.
Proof.
  induction s as [|c s IH]; cbn; [reflexivity | rewrite IH; reflexivity].
Qed.

(** ** Splitting at a separator *)

Lemma bytes_Split_not_nil (s : list byte) (sep : byte) :
  bytes_Split s sep <> [].
Proof.
  destruct s as [|c s]; cbn; [discriminate |].
  destruct (beq c sep); [discriminate |].
  destruct (bytes_Split s sep); discriminate.
Qed.

(** A segment that holds no separator, followed by a separator, is
    the first segment of the split. *)
Lemma bytes_Split_field (seg rest : list byte) (sep : byte) :
  ~ In sep seg ->
  bytes_Split (seg ++ sep :: rest) sep = seg :: bytes_Split rest sep.
Proof.
  induction seg as [|c seg IH]; intros NI; cbn.
  - replace (beq sep sep) with true by (symmetry; apply beq_eq; reflexivity).
    reflexivity.
  - assert (N : beq c sep = false).
    { apply beq_neq. intros ->. apply NI. left. reflexivity. }
    rewrite N, IH; [reflexivity |].
    intros I. apply NI. right. exact I.
Qed.

(** The split has one more segment than the message has separators. *)
Lemma bytes_Split_length (s : list byte) (sep : byte) :
  List.length (bytes_Split s sep) = S (count_occ Byte.byte_eq_dec s sep).
Proof.
  induction s as [|c s IH]; cbn; [reflexivity |].
  destruct (Byte.byte_eq_dec c sep) as [-> | N].
  - replace (beq sep sep) with true by (symmetry; apply beq_eq; reflexivity).
    cbn. rewrite IH. reflexivity.
  - replace (beq c sep) with false by (symmetry; apply beq_neq; exact N).
    pose proof (bytes_Split_not_nil s sep) as NN.
    destruct (bytes_Split s sep); [congruence |]. exact IH.
Qed.

(** ** The decoder: the claims *)

(** C7.  Every input of fewer than 9 bytes is refused with the error
    MalformedRequest; the request returned with it is the empty one. *)
Theorem C7_short_input_is_malformed :
  forall b : list byte,
    (List.length b < 9)%nat ->
    ParseRequest b = (Request.zero, Some MalformedRequest).
Proof.
  intros b L. unfold ParseRequest.
  destruct (Nat.ltb_spec (List.length b) 9) as [_ | Ge]; [reflexivity | lia].
Qed.

Lemma C7_short_input_is_malformed_witness :
  (List.length [x04; x01; x00; x50; x07] < 9)%nat /\
  ParseRequest [x04; x01; x00; x50; x07] = (Request.zero, Some MalformedRequest).
Proof.
  split.
  - cbn. lia.
  - apply (C7_short_input_is_malformed [x04; x01; x00; x50; x07]). cbn. lia.
Defined.

(** C8, as the claim is stated, fails: an input of one byte whose
    version byte is 0x05 is refused with MalformedRequest, not with
    UnsupportedVersion, because the length is tested first. *)
Lemma C8_short_input_counterexample :
  idx [x05] 0 <> x04 /\
  snd (ParseRequest [x05]) = Some MalformedRequest /\
  snd (ParseRequest [x05]) <> Some UnsupportedVersion.
Proof.
  repeat split; cbn; discriminate.
Qed.

(** C8, amended.  Every input of at least 9 bytes whose version byte
    (byte 0) is not 0x04 is refused with the error UnsupportedVersion. *)
Theorem C8_bad_version_is_unsupported :
  forall b : list byte,
    (9 <= List.length b)%nat ->
    idx b 0 <> x04 ->
    ParseRequest b = (Request.zero, Some UnsupportedVersion).
Proof.
  intros b L V. unfold ParseRequest.
  destruct (Nat.ltb_spec (List.length b) 9) as [Lt | _]; [lia |].
  replace (bne (idx b 0) Version4) with true; [reflexivity |].
  symmetry. apply bne_neq. exact V.
Qed.

Lemma C8_bad_version_is_unsupported_witness :
  (9 <= List.length [x05; x01; x00; x50; x07; x07; x07; x07; x00])%nat /\
  idx [x05; x01; x00; x50; x07; x07; x07; x07; x00] 0 <> x04 /\
  ParseRequest [x05; x01; x00; x50; x07; x07; x07; x07; x00]
  = (Request.zero, Some UnsupportedVersion).
Proof.
  split; [cbn; lia |]. split; [cbn; discriminate |].
  apply (C8_bad_version_is_unsupported
           [x05; x01; x00; x50; x07; x07; x07; x07; x00]).
  - cbn. lia.
  - cbn. discriminate.
Defined.

(** C6.  Every valid literal-form request (at least 9 bytes, version
    0x04, command CONNECT or BIND, address bytes that are not the
    extension sentinel) is decoded without error; the port recovered is
    the big-endian number in bytes 2-3, the address recovered is the
    dotted notation of bytes 4-7 followed by a colon and the decimal
    port, and the request is not marked as extended. *)
Theorem C6_literal_form_recovers_port_and_address :
  forall b : list byte,
    (9 <= List.length b)%nat ->
    idx b 0 = x04 ->
    idx b 1 = x01 \/ idx b 1 = x02 ->
    ~ extension_sentinel b ->
    let (req, err) := ParseRequest b in
    err = None /\
    Request.Port req = 256 * byteZ (idx b 2) + byteZ (idx b 3) /\
    Request.Address req
    = (Itoa (byteZ (idx b 4)) ++ "." ++ Itoa (byteZ (idx b 5)) ++ "."
       ++ Itoa (byteZ (idx b 6)) ++ "." ++ Itoa (byteZ (idx b 7))
       ++ ":" ++ Itoa (Request.Port req))%string /\
    Request.IsV4A req = false /\
    Request.Cmd req = idx b 1.
Proof.
  intros b L V C NS.
  rewrite (ParseRequest_header b L V C). cbv zeta.
  apply sentinel_test_false in NS. rewrite NS.
  cbn [Request.Port Request.Address Request.IsV4A Request.Cmd].
  repeat split.
  unfold dotted, idx. cbn [nth].
  rewrite !string_app_assoc. reflexivity.
Qed.

Lemma C6_literal_form_recovers_port_and_address_witness :
  let b := [x04; x01; x1f; x90; xc0; xa8; x00; x0a; x61; x00] in
  ((9 <= List.length b)%nat /\ idx b 0 = x04 /\
   (idx b 1 = x01 \/ idx b 1 = x02) /\ ~ extension_sentinel b) /\
  let (req, err) := ParseRequest b in
  err = None /\
  Request.Port req = 256 * byteZ (idx b 2) + byteZ (idx b 3) /\
  Request.Address req
  = (Itoa (byteZ (idx b 4)) ++ "." ++ Itoa (byteZ (idx b 5)) ++ "."
     ++ Itoa (byteZ (idx b 6)) ++ "." ++ Itoa (byteZ (idx b 7))
     ++ ":" ++ Itoa (Request.Port req))%string /\
  Request.IsV4A req = false /\
  Request.Cmd req = idx b 1.
Proof.
  intros b.
  assert (L : (9 <= List.length b)%nat) by (cbn; lia).
  assert (NS : ~ extension_sentinel b)
    by (intros [E _]; cbn in E; discriminate).
  split.
  - split; [exact L |]. split; [reflexivity |].
    split; [left; reflexivity | exact NS].
  - exact (C6_literal_form_recovers_port_and_address
             b L eq_refl (or_introl eq_refl) NS).
Defined.

Example literal_form_192_168_0_10 :
  ParseRequest [x04; x01; x1f; x90; xc0; xa8; x00; x0a; x61; x00]
  = (Request.mk x04 x01 8080 "192.168.0.10:8080" false "a", None).
Proof. reflexivity. Qed.

(** The bytes from offset 8 to the last but one are the bytes after the
    header without the final byte. *)
Lemma slice_drops_last (b ident : list byte) (last : byte) :
  skipn 8 b = ident ++ [last] ->
  slice b 8 (List.length b - 1) = ident.
Proof.
  intros E. unfold slice. rewrite E.
  assert (N : List.length (skipn 8 b) = S (List.length ident)).
  { rewrite E, length_app. cbn. lia. }
  rewrite length_skipn in N.
  replace (List.length b - 1 - 8)%nat with (List.length ident + 0)%nat by lia.
  rewrite firstn_app_2. cbn. apply app_nil_r.
Qed.

(** C10.  Every input of length n >= 9 with version byte 0x04, a command
    byte among 0x01 and 0x02 and address bytes that are not the
    extension sentinel is decoded without error, and the identity
    returned is bytes 8 to n-2: whatever the final byte of the message
    is, it is dropped, and nothing tests that it is a terminator. *)
Theorem C10_literal_identity_drops_final_byte :
  forall b : list byte,
    (9 <= List.length b)%nat ->
    idx b 0 = x04 ->
    idx b 1 = x01 \/ idx b 1 = x02 ->
    ~ extension_sentinel b ->
    let (req, err) := ParseRequest b in
    err = None /\
    Request.UserId req = string_of_bytes (slice b 8 (List.length b - 1)) /\
    (forall (ident : list byte) (last : byte),
        skipn 8 b = ident ++ [last] ->
        Request.UserId req = string_of_bytes ident).
Proof.
  intros b L V C NS.
  rewrite (ParseRequest_header b L V C). cbv zeta.
  apply sentinel_test_false in NS. rewrite NS.
  cbn [Request.UserId].
  split; [reflexivity |]. split; [reflexivity |].
  intros ident last E. rewrite (slice_drops_last b ident last E). reflexivity.
Qed.

Lemma C10_literal_identity_drops_final_byte_witness :
  let b := [x04; x01; x00; x50; x07; x07; x07; x07; x62; x6f; x62] in
  ((9 <= List.length b)%nat /\ idx b 0 = x04 /\
   (idx b 1 = x01 \/ idx b 1 = x02) /\ ~ extension_sentinel b) /\
  let (req, err) := ParseRequest b in
  err = None /\
  Request.UserId req = string_of_bytes (slice b 8 (List.length b - 1)) /\
  (forall (ident : list byte) (last : byte),
      skipn 8 b = ident ++ [last] ->
      Request.UserId req = string_of_bytes ident).
Proof.
  intros b.
  assert (L : (9 <= List.length b)%nat) by (cbn; lia).
  assert (NS : ~ extension_sentinel b)
    by (intros [E _]; cbn in E; discriminate).
  split.
  - split; [exact L |]. split; [reflexivity |].
    split; [left; reflexivity | exact NS].
  - exact (C10_literal_identity_drops_final_byte
             b L eq_refl (or_introl eq_refl) NS).
Defined.

(** A message that ends in a byte other than NUL is accepted and loses
    that byte: the identity sent is "bob", the one decoded is "bo". *)
Example literal_form_without_terminator :
  ParseRequest [x04; x01; x00; x50; x07; x07; x07; x07; x62; x6f; x62]
  = (Request.mk x04 x01 80 "7.7.7.7:80" false "bo", None).
Proof. reflexivity. Qed.

(** The extension branch of the decoder, by the number of segments. *)
Lemma ParseRequest_extended (b : list byte) :
  (9 <= List.length b)%nat ->
  idx b 0 = x04 ->
  idx b 1 = x01 \/ idx b 1 = x02 ->
  extension_sentinel b ->
  (List.length (bytes_Split (skipn 8 b) x00) <> 3%nat ->
   snd (ParseRequest b) = Some MalformedExtendedRequest) /\
  (forall identity domainName trailing : list byte,
      bytes_Split (skipn 8 b) x00 = [identity; domainName; trailing] ->
      ParseRequest b
      = (Request.mk x04 (idx b 1) (wire_port b)
           (string_of_bytes domainName ++ ":" ++ Itoa (wire_port b))
           true
           (string_of_bytes identity),
         None)).
Proof.
  intros L V C S.
  rewrite (ParseRequest_header b L V C). cbv zeta.
  apply sentinel_test in S. rewrite S.
  change NullByte with x00.
  split.
  - intros N. apply Nat.eqb_neq in N. rewrite N. reflexivity.
  - intros identity domainName trailing E. rewrite E. reflexivity.
Qed.

(** C5.  Every input of at least 9 bytes with a valid version and
    command whose bytes 4, 5 and 6 are zero and whose byte 7 is not is
    decoded as the domain-name extension.  The bytes from offset 8 are
    split at the NUL bytes, into one more field than there are NUL
    bytes.  With a number of fields other than three, that is a number
    of NUL bytes other than two, the input is refused with
    MalformedExtendedRequest.  With the three fields of the wire
    layout, an identity, a NUL, a domain name, a NUL and nothing after
    it, the decoding succeeds: the request is marked as extended, its
    address is the domain name, a colon and the decimal port, and its
    identity is the identity sent, whatever that is, the empty one
    included. *)
Theorem C5_extended_form :
  forall b : list byte,
    (9 <= List.length b)%nat ->
    idx b 0 = x04 ->
    idx b 1 = x01 \/ idx b 1 = x02 ->
    extension_sentinel b ->
    List.length (bytes_Split (skipn 8 b) x00)
    = S (count_occ Byte.byte_eq_dec (skipn 8 b) x00) /\
    (count_occ Byte.byte_eq_dec (skipn 8 b) x00 <> 2%nat ->
     snd (ParseRequest b) = Some MalformedExtendedRequest) /\
    (forall identity domainName : list byte,
        skipn 8 b = identity ++ x00 :: domainName ++ [x00] ->
        ~ In x00 identity ->
        ~ In x00 domainName ->
        bytes_Split (skipn 8 b) x00 = [identity; domainName; []] /\
        let (req, err) := ParseRequest b in
        err = None /\
        Request.IsV4A req = true /\
        Request.Address req
        = (string_of_bytes domainName ++ ":" ++ Itoa (Request.Port req))%string /\
        Request.Port req = 256 * byteZ (idx b 2) + byteZ (idx b 3) /\
        Request.UserId req = string_of_bytes identity).
Proof.
  intros b L V C S.
  destruct (ParseRequest_extended b L V C S) as [Bad Good].
  split; [apply bytes_Split_length |]. split.
  - intros N. apply Bad. rewrite bytes_Split_length. lia.
  - intros identity domainName Lay NI ND.
    assert (E : bytes_Split (skipn 8 b) x00 = [identity; domainName; []]).
    { rewrite Lay.
      rewrite (bytes_Split_field identity _ x00 NI).
      rewrite (bytes_Split_field domainName [] x00 ND).
      reflexivity. }
    split; [exact E |].
    rewrite (Good identity domainName [] E).
    repeat split.
Qed.

(** C5 on two messages.  The first has an empty identity and the domain
    name go.dev, each followed by a NUL: it is decoded.  The second has
    the identity a and the same domain name without its NUL: it is
    refused. *)
Lemma C5_extended_form_witness :
  let b := [x04; x01; x01; xbb; x00; x00; x00; x01; x00;
            x67; x6f; x2e; x64; x65; x76; x00] in
  let b' := [x04; x01; x01; xbb; x00; x00; x00; x01; x61; x00;
             x67; x6f; x2e; x64; x65; x76] in
  ((9 <= List.length b)%nat /\ idx b 0 = x04 /\
   (idx b 1 = x01 \/ idx b 1 = x02) /\ extension_sentinel b /\
   skipn 8 b = [] ++ x00 :: [x67; x6f; x2e; x64; x65; x76] ++ [x00] /\
   ~ In x00 [] /\
   ~ In x00 [x67; x6f; x2e; x64; x65; x76]) /\
  (bytes_Split (skipn 8 b) x00 = [[]; [x67; x6f; x2e; x64; x65; x76]; []] /\
   let (req, err) := ParseRequest b in
   err = None /\
   Request.IsV4A req = true /\
   Request.Address req
   = (string_of_bytes [x67; x6f; x2e; x64; x65; x76] ++ ":"
      ++ Itoa (Request.Port req))%string /\
   Request.Port req = 256 * byteZ (idx b 2) + byteZ (idx b 3) /\
   Request.UserId req = string_of_bytes []) /\
  ((9 <= List.length b')%nat /\ idx b' 0 = x04 /\
   (idx b' 1 = x01 \/ idx b' 1 = x02) /\ extension_sentinel b' /\
   count_occ Byte.byte_eq_dec (skipn 8 b') x00 <> 2%nat) /\
  snd (ParseRequest b') = Some MalformedExtendedRequest.
Proof.
  intros b b'.
  assert (L : (9 <= List.length b)%nat) by (cbn; lia).
  assert (S : extension_sentinel b).
  { repeat split. cbn. discriminate. }
  assert (NI : ~ In x00 (@nil byte)) by (intros []).
  assert (ND : ~ In x00 [x67; x6f; x2e; x64; x65; x76]).
  { intros H. cbn in H.
    repeat (destruct H as [H | H]; [discriminate H |]). exact H. }
  assert (L' : (9 <= List.length b')%nat) by (cbn; lia).
  assert (S' : extension_sentinel b').
  { repeat split. cbn. discriminate. }
  assert (N' : count_occ Byte.byte_eq_dec (skipn 8 b') x00 <> 2%nat)
    by (cbn; discriminate).
  split.
  { split; [exact L |]. split; [reflexivity |].
    split; [left; reflexivity |]. split; [exact S |].
    split; [reflexivity |]. split; [exact NI | exact ND]. }
  split.
  { exact (proj2 (proj2 (C5_extended_form b L eq_refl (or_introl eq_refl) S))
             [] [x67; x6f; x2e; x64; x65; x76] eq_refl NI ND). }
  split.
  { split; [exact L' |]. split; [reflexivity |].
    split; [left; reflexivity |]. split; [exact S' | exact N']. }
  exact (proj1 (proj2 (C5_extended_form b' L' eq_refl (or_introl eq_refl) S'))
           N').
Defined.

(** The wire layout of the extension: after the 8-byte header, an
    identity and a domain name without NUL bytes, each followed by a
    NUL.  Every such message is decoded to its domain name, for every
    identity. *)
Lemma extended_form_fields (hdr identity domainName : list byte) :
  List.length hdr = 8%nat ->
  idx hdr 0 = x04 ->
  idx hdr 1 = x01 \/ idx hdr 1 = x02 ->
  extension_sentinel hdr ->
  ~ In x00 identity ->
  ~ In x00 domainName ->
  ParseRequest (hdr ++ identity ++ x00 :: domainName ++ [x00])
  = (Request.mk x04 (idx hdr 1) (wire_port hdr)
       (string_of_bytes domainName ++ ":" ++ Itoa (wire_port hdr))
       true
       (string_of_bytes identity),
     None).
Proof.
  intros L V C S NI ND.
  destruct hdr as [|h0 [|h1 [|h2 [|h3 [|h4 [|h5 [|h6 [|h7 [|h8 tl]]]]]]]]];
    cbn in L; try lia. clear L.
  set (b := [h0; h1; h2; h3; h4; h5; h6; h7]
            ++ identity ++ x00 :: domainName ++ [x00]).
  assert (Lb : (9 <= List.length b)%nat).
  { unfold b. rewrite !length_app. cbn. lia. }
  assert (Sb : extension_sentinel b) by exact S.
  destruct (ParseRequest_extended b Lb V C Sb) as [_ T].
  apply (T identity domainName []).
  unfold b. cbn [app skipn].
  rewrite (bytes_Split_field identity _ x00 NI).
  rewrite (bytes_Split_field domainName [] x00 ND).
  reflexivity.
Qed.

(** An empty identity: the message of the witness above. *)
Example extended_form_empty_identity :
  ParseRequest [x04; x01; x01; xbb; x00; x00; x00; x01; x00;
                x67; x6f; x2e; x64; x65; x76; x00]
  = (Request.mk x04 x01 443 "go.dev:443" true "", None).
Proof. reflexivity. Qed.

(** Only the number of segments is tested: bytes after the second NUL
    are accepted and ignored. *)
Example extended_form_last_segment_unchecked :
  ParseRequest [x04; x01; x01; xbb; x00; x00; x00; x01; x61; x00;
                x67; x6f; x2e; x64; x65; x76; x00; x7a; x7a]
  = (Request.mk x04 x01 443 "go.dev:443" true "a", None).
Proof. reflexivity. Qed.

(** A domain name that is not terminated leaves two segments. *)
Example extended_form_two_segments :
  ParseRequest [x04; x01; x01; xbb; x00; x00; x00; x01; x61; x00;
                x67; x6f; x2e; x64; x65; x76]
  = (Request.mk x04 x01 443 "" true "", Some MalformedExtendedRequest).
Proof. reflexivity. Qed.

(** ** The encoder *)

Lemma status_byte_test (cd : byte) :
  (if bne cd Granted && bne cd RejectOrFailure
      && bne cd RejectNoIdentd && bne cd RejectWrongUserId
   then RejectOrFailure else cd)
  = sanitized cd.
Proof.
  unfold sanitized, bne, beq, Granted, RejectOrFailure, RejectNoIdentd,
    RejectWrongUserId.
  destruct (Byte.eqb cd x5a), (Byte.eqb cd x5b), (Byte.eqb cd x5c),
    (Byte.eqb cd x5d); reflexivity.
Qed.

(** The status byte on the wire is one of the four of the protocol, and
    it is the one given when that is one of them. *)
Lemma sanitized_spec (cd : byte) :
  (cd = x5a \/ cd = x5b \/ cd = x5c \/ cd = x5d -> sanitized cd = cd) /\
  (cd <> x5a -> cd <> x5b -> cd <> x5c -> cd <> x5d -> sanitized cd = x5b).
Proof.
  split.
  - intros [-> | [-> | [-> | ->]]]; reflexivity.
  - intros A B C D. unfold sanitized.
    apply beq_neq in A, B, C, D. rewrite A, B, C, D. reflexivity.
Qed.

(** The encoder, whatever the address is: four bytes of header, then the
    4-byte form of the address, which is empty when there is none. *)
Lemma ToBytes_layout (r : Reply.t) :
  Reply.ToBytes r
  = [x00; sanitized (Reply.Cd r);
     byte_of_Z (Z.shiftr (uint16 (Reply.Port r)) 8);
     byte_of_Z (uint16 (Reply.Port r))]
    ++ To4 (Reply.IP r).
Proof.
  unfold Reply.ToBytes, BigEndian_AppendUint16.
  rewrite <- (status_byte_test (Reply.Cd r)).
  destruct (bne (Reply.Cd r) Granted && bne (Reply.Cd r) RejectOrFailure
            && bne (Reply.Cd r) RejectNoIdentd
            && bne (Reply.Cd r) RejectWrongUserId); reflexivity.
Qed.

(** The two bytes of the port, most significant first, are the port
    modulo 65536. *)
Lemma port_bytes_value (p : Z) :
  256 * byteZ (byte_of_Z (Z.shiftr (uint16 p) 8)) + byteZ (byte_of_Z (uint16 p))
  = p mod 65536.
Proof.
  unfold uint16. rewrite !byteZ_of_Z.
  rewrite Z.shiftr_div_pow2 by lia. change (2 ^ 8) with 256.
  assert (R : 0 <= p mod 65536 < 65536) by (apply Z.mod_pos_bound; lia).
  set (v := p mod 65536) in *.
  assert (Q : 0 <= v / 256 < 256).
  { split; [apply Z.div_pos; lia | apply Z.div_lt_upper_bound; lia]. }
  rewrite (Z.mod_small (v / 256)) by lia.
  pose proof (Z.div_mod v 256). lia.
Qed.

(** The 4-byte form of an address has four bytes or none. *)
Lemma To4_length (ip : Go.IP) :
  List.length (To4 ip) = 4%nat \/ To4 ip = [].
Proof.
  unfold To4.
  destruct (Nat.eqb_spec (List.length ip) IPv4len) as [E | N].
  - left. exact E.
  - destruct (Nat.eqb_spec (List.length ip) IPv6len) as [E | N'];
      [| right; reflexivity].
    cbn [andb].
    destruct (isZeros (slice ip 0 10) && beq (idx ip 10) xff
              && beq (idx ip 11) xff); [| right; reflexivity].
    left. unfold slice. rewrite length_firstn, length_skipn, E.
    reflexivity.
Qed.

(** C3, as the claim is stated, fails: the reply that the handler sends
    on a failure carries no address, and its encoding has four bytes. *)
Lemma C3_reply_without_address_counterexample :
  Reply.ToBytes (Reply.mk RejectOrFailure 0 []) = [x00; x5b; x00; x00] /\
  List.length (Reply.ToBytes (Reply.mk RejectOrFailure 0 [])) <> 8%nat.
Proof.
  split; [reflexivity | cbn; discriminate].
Qed.

(** C3, amended.  For every Reply whose address has a 4-byte form (a
    4-byte address, or the 16-byte form of an IPv4 address), the
    encoding has exactly 8 bytes: 0x00, the status byte, the port as two
    bytes, most significant first, and the four bytes of the address;
    a status byte other than 0x5a, 0x5b, 0x5c, 0x5d is replaced by
    0x5b. *)
Theorem C3_encode_reply_with_ipv4_address :
  forall r : Reply.t,
    List.length (To4 (Reply.IP r)) = 4%nat ->
    exists hi lo a b c d : byte,
      Reply.ToBytes r = [x00; sanitized (Reply.Cd r); hi; lo; a; b; c; d] /\
      List.length (Reply.ToBytes r) = 8%nat /\
      256 * byteZ hi + byteZ lo = Reply.Port r mod 65536 /\
      To4 (Reply.IP r) = [a; b; c; d] /\
      (Reply.Cd r = x5a \/ Reply.Cd r = x5b \/ Reply.Cd r = x5c
       \/ Reply.Cd r = x5d -> sanitized (Reply.Cd r) = Reply.Cd r) /\
      (Reply.Cd r <> x5a -> Reply.Cd r <> x5b -> Reply.Cd r <> x5c ->
       Reply.Cd r <> x5d -> sanitized (Reply.Cd r) = x5b).
Proof.
  intros r L. rewrite ToBytes_layout.
  destruct (To4 (Reply.IP r)) as [|a [|b [|c [|d [|e tl]]]]];
    cbn in L; try discriminate.
  exists (byte_of_Z (Z.shiftr (uint16 (Reply.Port r)) 8)),
         (byte_of_Z (uint16 (Reply.Port r))), a, b, c, d.
  split; [reflexivity |]. split; [reflexivity |].
  split; [apply port_bytes_value |]. split; [reflexivity |].
  apply sanitized_spec.
Qed.

Lemma C3_encode_reply_with_ipv4_address_witness :
  List.length (To4 (Reply.IP (Reply.mk xff 8080 [x0a; x00; x00; x01]))) = 4%nat /\
  exists hi lo a b c d : byte,
    Reply.ToBytes (Reply.mk xff 8080 [x0a; x00; x00; x01])
    = [x00; sanitized xff; hi; lo; a; b; c; d] /\
    List.length (Reply.ToBytes (Reply.mk xff 8080 [x0a; x00; x00; x01])) = 8%nat /\
    256 * byteZ hi + byteZ lo = 8080 mod 65536 /\
    To4 [x0a; x00; x00; x01] = [a; b; c; d] /\
    (xff = x5a \/ xff = x5b \/ xff = x5c \/ xff = x5d -> sanitized xff = xff) /\
    (xff <> x5a -> xff <> x5b -> xff <> x5c -> xff <> x5d ->
     sanitized xff = x5b).
Proof.
  split; [reflexivity |].
  exact (C3_encode_reply_with_ipv4_address
           (Reply.mk xff 8080 [x0a; x00; x00; x01]) eq_refl).
Defined.

Example reply_unknown_status :
  Reply.ToBytes (Reply.mk xff 8080 [x0a; x00; x00; x01])
  = [x00; x5b; x1f; x90; x0a; x00; x00; x01].
Proof. reflexivity. Qed.

(** A port outside 0..65535 is cut to its low sixteen bits, and the
    16-byte form of an IPv4 address is encoded as its four bytes. *)
Example reply_port_wraps :
  Reply.ToBytes (Reply.mk Granted 65616 (IPv4 x7f x00 x00 x01))
  = [x00; x5a; x00; x50; x7f; x00; x00; x01].
Proof. reflexivity. Qed.

(** The first reply of a BIND session carries no address either. *)
Example reply_bind_first :
  Reply.ToBytes (Reply.mk Granted 40000 []) = [x00; x5a; x9c; x40].
Proof. reflexivity. Qed.

(** ** Running the handlers *)

(** Unfolds the operations of the monad and of the transport, and
    computes the fields of the worlds that are written out. *)
Ltac run :=
  cbv beta iota zeta delta
    [bind ret emit defer go panic Debugf Infof Warnf
     Conn_Read Conn_Write Conn_Close Conn_RemoteAddr Conn_LocalAddr
     Listener_Close Listener_Addr Listener_Accept net_Dial net_Listen
     bind_timer];
  cbn [trace inbox srv_lis srv_closed with_trace with_inbox].

(** Brings a trace to the form [t ++ [e1; ...; en]] and counts the
    writes among the events written out. *)
Ltac tidy_trace :=
  cbn [trace inbox srv_lis srv_closed record with_trace with_inbox];
  rewrite <- ?app_assoc; cbn [app].

Lemma writes_on_app (c : ConnId) (t t' : list Event) :
  writes_on c (t ++ t') = (writes_on c t + writes_on c t')%nat.
Proof.
  induction t as [|e t IH]; cbn; [reflexivity |].
  destruct e; try exact IH.
  destruct (Nat.eqb c0 c); cbn; rewrite IH; reflexivity.
Qed.

Lemma sent_to_app (c : ConnId) (t t' : list Event) :
  sent_to c (t ++ t') = sent_to c t ++ sent_to c t'.
Proof.
  induction t as [|e t IH]; cbn; [reflexivity |].
  destruct e; try exact IH.
  destruct res; [exact IH |].
  destruct (Nat.eqb c0 c); cbn; rewrite IH; reflexivity.
Qed.

(** *** CONNECT when the dial fails *)

Lemma establishConnect_refused net conn req e w :
  dial net (Request.Address req) = inr e ->
  establishConnect net conn req w
  = (Done (None, Some e), record [EvDial (Request.Address req) (inr e)] w).
Proof.
  intros D. unfold establishConnect. run. rewrite D. reflexivity.
Qed.

(** Whenever the request read is a CONNECT and the dial fails, the
    handshake writes the reply (four bytes, there being no address) and
    then calls [Close] on the nil connection that the failed dial
    returned: it panics and returns nothing. *)
Lemma establishProxy_connect_refused net c w f fs req e :
  inbox w c = f :: fs ->
  ParseRequest (firstn 41 f) = (req, None) ->
  Request.Cmd req = CmdConnect ->
  dial net (Request.Address req) = inr e ->
  exists w',
    establishProxy net (Some c) w = (Panic nil_dereference, w') /\
    trace w' = trace w ++
      [EvRead c 41 (inl (firstn 41 f));
       EvLog Debug "read request from client %v: %v";
       EvDial (Request.Address req) (inr e);
       EvWrite c [x00; x5b; x00; x00]
         (write_err net c (writes_on c (trace w)))].
Proof.
  intros I P C D.
  unfold establishProxy. run. rewrite I. run. rewrite P. run. rewrite C.
  change (beq CmdConnect CmdConnect) with true. cbv beta iota.
  rewrite establishConnect_refused with (e := e) by exact D.
  run.
  eexists. split; [reflexivity |]. tidy_trace.
  rewrite !writes_on_app. cbn [writes_on]. rewrite !Nat.add_0_r.
  reflexivity.
Qed.

(** The panic leaves [handleConn] after its deferred calls, whatever the
    outcome of the write was. *)
Lemma handleConn_connect_refused net c w f fs req e :
  inbox w c = f :: fs ->
  ParseRequest (firstn 41 f) = (req, None) ->
  Request.Cmd req = CmdConnect ->
  dial net (Request.Address req) = inr e ->
  exists w',
    handleConn net (Some c) w = (Panic nil_dereference, w') /\
    trace w' = trace w ++
      [EvRead c 41 (inl (firstn 41 f));
       EvLog Debug "read request from client %v: %v";
       EvDial (Request.Address req) (inr e);
       EvWrite c [x00; x5b; x00; x00]
         (write_err net c (writes_on c (trace w)));
       EvWgDone;
       EvCloseConn c].
Proof.
  intros I P C D.
  destruct (establishProxy_connect_refused net c w f fs req e I P C D)
    as (w1 & E & T).
  unfold handleConn. run. rewrite E. run.
  eexists. split; [reflexivity |]. tidy_trace. rewrite T. tidy_trace.
  reflexivity.
Qed.

(** In the accept loop the panic of the session ends the process: the
    loop returns nothing and the arrivals that follow are not served,
    whatever they are. *)
Lemma accept_loop_connect_refused net l c rest w f fs req e :
  inbox w c = f :: fs ->
  ParseRequest (firstn 41 f) = (req, None) ->
  Request.Cmd req = CmdConnect ->
  dial net (Request.Address req) = inr e ->
  exists w',
    accept_loop net l (Incoming c :: rest) w = (Crash nil_dereference, w') /\
    trace w' = trace w ++
      [EvAccept l (inl c);
       EvLog Info "accept connection from: %v";
       EvWgAdd;
       EvRead c 41 (inl (firstn 41 f));
       EvLog Debug "read request from client %v: %v";
       EvDial (Request.Address req) (inr e);
       EvWrite c [x00; x5b; x00; x00]
         (write_err net c (writes_on c (trace w)));
       EvWgDone;
       EvCloseConn c].
Proof.
  intros I P C D.
  cbn [accept_loop]. run.
  match goal with
  | |- context [handleConn net (Some c) ?w0] =>
      destruct (handleConn_connect_refused net c w0 f fs req e I P C D)
        as (w1 & E & T)
  end.
  rewrite E.
  eexists. split; [reflexivity |]. rewrite T. tidy_trace.
  rewrite !writes_on_app. cbn [writes_on]. rewrite !Nat.add_0_r.
  reflexivity.
Qed.

(** C2.  The code at a CONNECT request whose dial fails (client 1 asks
    for 7.7.7.7:80, which refuses): the handshake writes a reply of four
    bytes and then panics on the nil connection; it does not return the
    dial error, nor any error. *)
Theorem C2_connect_dial_failure_panics :
  fst (establishProxy Fixture.net (Some 1%nat) Fixture.world)
  = Panic nil_dereference /\
  trace (snd (establishProxy Fixture.net (Some 1%nat) Fixture.world))
  = [EvRead 1%nat 41 (inl Fixture.connect7);
     EvLog Debug "read request from client %v: %v";
     EvDial "7.7.7.7:80" (inr "connection refused");
     EvWrite 1%nat [x00; x5b; x00; x00] None] /\
  (forall (remote : Conn) (err : option error),
      fst (establishProxy Fixture.net (Some 1%nat) Fixture.world)
      <> Done (remote, err)).
Proof.
  split; [reflexivity |]. split; [reflexivity |].
  intros remote err. cbn. discriminate.
Qed.

(** C1.  The code at a session-level failure (client 1 asks for
    7.7.7.7:80, which refuses, and client 2 connects after it): the
    panic of the session of client 1 ends the process; the accept loop
    does not go on and client 2 is never accepted.  Without client 1,
    client 2 is served and the loop goes on accepting. *)
Theorem C1_dial_failure_ends_the_process :
  fst (Run Fixture.net ":1080" [Incoming 1%nat; Incoming 2%nat] Fixture.world)
  = Crash nil_dereference /\
  trace (snd (Run Fixture.net ":1080" [Incoming 1%nat; Incoming 2%nat]
                Fixture.world))
  = [EvListen ":1080" (inl 3%nat);
     EvLog Info "SOCKS server listen on %v";
     EvAccept 3%nat (inl 1%nat);
     EvLog Info "accept connection from: %v";
     EvWgAdd;
     EvRead 1%nat 41 (inl Fixture.connect7);
     EvLog Debug "read request from client %v: %v";
     EvDial "7.7.7.7:80" (inr "connection refused");
     EvWrite 1%nat [x00; x5b; x00; x00] None;
     EvWgDone;
     EvCloseConn 1%nat] /\
  fst (Run Fixture.net ":1080" [Incoming 2%nat] Fixture.world)
  = Done Accepting /\
  sent_to 2%nat (trace (snd (Run Fixture.net ":1080" [Incoming 2%nat]
                           Fixture.world)))
  = [[x00; x5a; xc7; x38; x0a; x00; x00; x01]].
Proof.
  repeat split.
Qed.

(** *** BIND when no connection arrives in time *)

Lemma establishBind_timeout net c req l addr w :
  listen net "" = inl l ->
  lis_addr net l = inl addr ->
  inbound net l = None ->
  write_err net c (writes_on c (trace w)) = None ->
  establishBind net (Some c) req w
  = (Done (None, Some ErrClosed),
     record
       [EvListen "" (inl l);
        EvWrite c (Reply.ToBytes (Reply.mk Granted (TCPAddr.Port addr) []))
          None;
        EvGoTimer l 120;
        EvTimerFired l;
        EvCloseLis l;
        EvAccept l (inr ErrClosed);
        EvCloseLis l] w).
Proof.
  intros Li A In W.
  unfold establishBind. run. rewrite Li. run. rewrite A. run.
  rewrite writes_on_app. cbn [writes_on]. rewrite Nat.add_0_r, W.
  run. rewrite In. run.
  unfold record, with_trace. rewrite <- !app_assoc. reflexivity.
Qed.

(** C4, as the claim is stated, fails: in a BIND session that nothing
    connects to (client 4), two messages are written to the client, the
    first reply and then a reply REJECTED_OR_FAILED. *)
Lemma C4_bind_timeout_second_message_counterexample :
  inbound Fixture.net 3%nat = None /\
  sent_to 4%nat (trace (snd (handleConn Fixture.net (Some 4%nat) Fixture.world)))
  = [[x00; x5a; x9c; x40]; [x00; x5b; x00; x00]] /\
  List.length
    (sent_to 4%nat (trace (snd (handleConn Fixture.net (Some 4%nat)
                              Fixture.world))))
  <> 1%nat.
Proof.
  split; [reflexivity |]. split; [reflexivity |]. cbn. discriminate.
Qed.

(** C4, amended.  For every BIND session in which no inbound connection
    arrives within the limit, the listening transport is closed, so the
    accept fails; the handler then writes a REJECTED_OR_FAILED reply to
    the client, after the first reply; when that write succeeds the
    session aborts and the client connection is closed, the client
    having been sent those two messages and no other. *)
Theorem C4_bind_timeout_rejects_and_closes :
  forall (net : Net) (c : ConnId) (w : World) (f : list byte)
         (fs : list (list byte)) (req : Request.t) (l : LisId)
         (addr : TCPAddr.t),
    inbox w c = f :: fs ->
    ParseRequest (firstn 41 f) = (req, None) ->
    Request.Cmd req = CmdBind ->
    listen net "" = inl l ->
    lis_addr net l = inl addr ->
    inbound net l = None ->
    write_err net c (writes_on c (trace w)) = None ->
    write_err net c (S (writes_on c (trace w))) = None ->
    exists w',
      handleConn net (Some c) w = (Done tt, w') /\
      trace w' = trace w ++
        [EvRead c 41 (inl (firstn 41 f));
         EvLog Debug "read request from client %v: %v";
         EvListen "" (inl l);
         EvWrite c (Reply.ToBytes (Reply.mk Granted (TCPAddr.Port addr) []))
           None;
         EvGoTimer l 120;
         EvTimerFired l;
         EvCloseLis l;
         EvAccept l (inr ErrClosed);
         EvCloseLis l;
         EvWrite c (Reply.ToBytes (Reply.mk RejectOrFailure 0 [])) None;
         EvLog Warn "establish proxy error: %v";
         EvWgDone;
         EvCloseConn c] /\
      sent_to c (trace w') = sent_to c (trace w) ++
        [Reply.ToBytes (Reply.mk Granted (TCPAddr.Port addr) []);
         Reply.ToBytes (Reply.mk RejectOrFailure 0 [])].
Proof.
  intros net c w f fs req l addr I P C Li A In W1 W2.
  assert (E : exists w',
             handleConn net (Some c) w = (Done tt, w') /\
             trace w' = trace w ++
               [EvRead c 41 (inl (firstn 41 f));
                EvLog Debug "read request from client %v: %v";
                EvListen "" (inl l);
                EvWrite c
                  (Reply.ToBytes (Reply.mk Granted (TCPAddr.Port addr) []))
                  None;
                EvGoTimer l 120;
                EvTimerFired l;
                EvCloseLis l;
                EvAccept l (inr ErrClosed);
                EvCloseLis l;
                EvWrite c (Reply.ToBytes (Reply.mk RejectOrFailure 0 [])) None;
                EvLog Warn "establish proxy error: %v";
                EvWgDone;
                EvCloseConn c]).
  { unfold handleConn, establishProxy. run. rewrite I. run. rewrite P. run.
    rewrite C.
    change (beq CmdBind CmdConnect) with false.
    change (beq CmdBind CmdBind) with true. cbv beta iota.
    rewrite establishBind_timeout with (l := l) (addr := addr);
      [| exact Li | exact A | exact In
       | tidy_trace; rewrite !writes_on_app; cbn [writes_on];
         rewrite !Nat.add_0_r; exact W1].
    run. tidy_trace.
    rewrite !writes_on_app. cbn [writes_on]. rewrite Nat.eqb_refl.
    cbn [writes_on]. rewrite Nat.add_1_r, W2. run.
    eexists. split; [reflexivity |]. tidy_trace. reflexivity. }
  destruct E as (w' & E & T).
  exists w'. split; [exact E |]. split; [exact T |].
  rewrite T, sent_to_app. cbn [sent_to]. rewrite Nat.eqb_refl. reflexivity.
Qed.

(** C4: the session of client 4 of the fixture. *)
Lemma C4_bind_timeout_rejects_and_closes_witness :
  (inbox Fixture.world 4%nat = [Fixture.bind1] /\
   ParseRequest (firstn 41 Fixture.bind1)
   = (Request.mk x04 x02 80 "10.0.0.2:80" false "", None) /\
   Request.Cmd (Request.mk x04 x02 80 "10.0.0.2:80" false "") = CmdBind /\
   listen Fixture.net "" = inl 3%nat /\
   lis_addr Fixture.net 3%nat = inl (TCPAddr.mk (repeat x00 16) 40000) /\
   inbound Fixture.net 3%nat = None /\
   write_err Fixture.net 4%nat (writes_on 4%nat (trace Fixture.world)) = None /\
   write_err Fixture.net 4%nat (S (writes_on 4%nat (trace Fixture.world)))
   = None) /\
  exists w',
    handleConn Fixture.net (Some 4%nat) Fixture.world = (Done tt, w') /\
    trace w' = trace Fixture.world ++
      [EvRead 4%nat 41 (inl (firstn 41 Fixture.bind1));
       EvLog Debug "read request from client %v: %v";
       EvListen "" (inl 3%nat);
       EvWrite 4%nat
         (Reply.ToBytes
            (Reply.mk Granted
               (TCPAddr.Port (TCPAddr.mk (repeat x00 16) 40000)) []))
         None;
       EvGoTimer 3%nat 120;
       EvTimerFired 3%nat;
       EvCloseLis 3%nat;
       EvAccept 3%nat (inr ErrClosed);
       EvCloseLis 3%nat;
       EvWrite 4%nat (Reply.ToBytes (Reply.mk RejectOrFailure 0 [])) None;
       EvLog Warn "establish proxy error: %v";
       EvWgDone;
       EvCloseConn 4%nat] /\
    sent_to 4%nat (trace w') = sent_to 4%nat (trace Fixture.world) ++
      [Reply.ToBytes
         (Reply.mk Granted
            (TCPAddr.Port (TCPAddr.mk (repeat x00 16) 40000)) []);
       Reply.ToBytes (Reply.mk RejectOrFailure 0 [])].
Proof.
  split.
  - repeat split.
  - apply (C4_bind_timeout_rejects_and_closes
             Fixture.net 4%nat Fixture.world Fixture.bind1 []
             (Request.mk x04 x02 80 "10.0.0.2:80" false "") 3%nat
             (TCPAddr.mk (repeat x00 16) 40000)); reflexivity.
Defined.

(** When the reply after the failed accept cannot be written, the BIND
    branch calls [Close] on the nil connection that [establishBind]
    returned, and the session panics. *)
Example bind_timeout_and_broken_pipe :
  fst (handleConn Fixture.net_broken_pipe (Some 4%nat) Fixture.world)
  = Panic nil_dereference /\
  fst (Run Fixture.net_broken_pipe ":1080" [Incoming 4%nat; Incoming 2%nat]
         Fixture.world)
  = Crash nil_dereference.
Proof. split; reflexivity. Qed.

(** A request that cannot be decoded ends its session and nothing else:
    no reply is written, the connection is closed, and the loop goes on
    to serve the next client. *)
Example malformed_request_is_session_local :
  fst (Run Fixture.net ":1080" [Incoming 5%nat; Incoming 2%nat]
         (Fixture.world_long [[x04; x01; x00; x50; x07]]))
  = Done Accepting /\
  sent_to 5%nat
    (trace (snd (Run Fixture.net ":1080" [Incoming 5%nat]
                   (Fixture.world_long [[x04; x01; x00; x50; x07]]))))
  = [].
Proof. split; reflexivity. Qed.

(** *** The read of the request *)

Lemma quiet_ret {A} (a : A) : quiet (ret a).
Proof.
  intros w. cbn. split; [reflexivity |]. split; [| reflexivity].
  exists []. split; [symmetry; apply app_nil_r | constructor].
Qed.

Lemma quiet_panic {A} (msg : string) : quiet (@panic A msg).
Proof.
  intros w. cbn. split; [reflexivity |]. split; [| reflexivity].
  exists []. split; [symmetry; apply app_nil_r | constructor].
Qed.

Lemma quiet_emit (e : Event) : is_read e = false -> quiet (emit e).
Proof.
  intros R w. cbn. split; [reflexivity |]. split; [| reflexivity].
  exists [e]. split; [reflexivity | constructor; [exact R | constructor]].
Qed.

Lemma quiet_bind {A B} (m : M A) (k : A -> M B) :
  quiet m -> (forall a, quiet (k a)) -> quiet (bind m k).
Proof.
  intros Qm Qk w. unfold bind.
  destruct (Qm w) as (I & (es & T & F) & N).
  destruct (m w) as [o w1] eqn:E. cbn [fst snd] in *.
  destruct o as [a | msg | msg].
  - destruct (Qk a w1) as (I' & (es' & T' & F') & N').
    split; [congruence |]. split.
    + exists (es ++ es'). split.
      * rewrite T', T, app_assoc. reflexivity.
      * apply Forall_app. split; assumption.
    + intros i. rewrite N. apply N'.
  - split; [exact I |]. split; [exists es; split; assumption |].
    intros i. rewrite N. reflexivity.
  - split; [exact I |]. split; [exists es; split; assumption |].
    intros i. rewrite N. reflexivity.
Qed.

Lemma quiet_defer {A} (d : M unit) (body : M A) :
  quiet d -> quiet body -> quiet (defer d body).
Proof.
  intros Qd Qb w. unfold defer.
  destruct (Qb w) as (I & (es & T & F) & N).
  destruct (body w) as [o w1] eqn:E. cbn [fst snd] in *.
  destruct (Qd w1) as (I' & (es' & T' & F') & N').
  assert (X : exists es0, trace (snd (d w1)) = trace w ++ es0 /\
                 Forall (fun e => is_read e = false) es0).
  { exists (es ++ es'). split.
    - rewrite T', T, app_assoc. reflexivity.
    - apply Forall_app. split; assumption. }
  destruct o as [a | msg | msg].
  - destruct (d w1) as [o' w2] eqn:E'. cbn [fst snd] in *.
    destruct o'; (split; [cbn; congruence |]); (split; [exact X |]);
      intros i; rewrite N, N'; reflexivity.
  - destruct (d w1) as [o' w2] eqn:E'. cbn [fst snd] in *.
    destruct o'; (split; [cbn; congruence |]); (split; [exact X |]);
      intros i; rewrite N, N'; reflexivity.
  - split; [exact I |]. split; [exists es; split; assumption |].
    intros i. rewrite N. reflexivity.
Qed.

Lemma quiet_go (f : M unit) : quiet f -> quiet (go f).
Proof.
  intros Qf w. unfold go.
  destruct (Qf w) as (I & X & N).
  destruct (f w) as [o w1] eqn:E. cbn [fst snd] in *.
  destruct o; (split; [exact I |]); (split; [exact X |]);
    intros i; rewrite N; reflexivity.
Qed.

Lemma quiet_Conn_Write net conn data : quiet (Conn_Write net conn data).
Proof.
  destruct conn as [c |]; [| apply quiet_panic].
  intros w. cbn. split; [reflexivity |]. split; [| reflexivity].
  eexists [_]. split; [reflexivity | constructor; [reflexivity | constructor]].
Qed.

(** One step of a proof that a computation reads nothing. *)
Ltac quiet_step :=
  match goal with
  | |- quiet (bind _ _) => apply quiet_bind; [| intros ?]
  | |- quiet (defer _ _) => apply quiet_defer
  | |- quiet (go _) => apply quiet_go
  | |- quiet (ret _) => apply quiet_ret
  | |- quiet (panic _) => apply quiet_panic
  | |- quiet (emit _) => apply quiet_emit; reflexivity
  | |- quiet (Conn_Write _ _ _) => apply quiet_Conn_Write
  | |- quiet (match ?x with _ => _ end) => destruct x
  | |- quiet (let (_, _) := ?x in _) => destruct x
  | |- quiet (if ?x then _ else _) => destruct x
  end.

Ltac quiet_auto := cbv beta zeta; repeat (quiet_step; cbv beta zeta).

Lemma quiet_Conn_Close conn : quiet (Conn_Close conn).
Proof. unfold Conn_Close. quiet_auto. Qed.

Lemma quiet_establishConnect net conn req : quiet (establishConnect net conn req).
Proof.
  unfold establishConnect, net_Dial. quiet_auto.
Qed.

Lemma quiet_establishBind net conn req : quiet (establishBind net conn req).
Proof.
  unfold establishBind, net_Listen, Listener_Close, Listener_Addr, Listener_Accept, bind_timer, Listener_Close.
  quiet_auto.
Qed.

(** The handshake is a read followed by a computation that reads
    nothing. *)
Lemma establishProxy_after_read net conn :
  exists K, establishProxy net conn = bind (Conn_Read conn 41) K /\ forall x, quiet (K x).
Proof.
  eexists. split; [reflexivity |].
  intros [b err]. cbv beta zeta.
  destruct err; [quiet_auto|].
  unfold Conn_RemoteAddr, Debugf, Conn_LocalAddr, Conn_Close. 
  quiet_auto.
  all: try apply quiet_establishConnect.
  all: try apply quiet_establishBind.
Qed.

Lemma establishProxy_read_fails net c w :
  inbox w c = [] ->
  establishProxy net (Some c) w
  = (Done (None, Some "failed to read from connect: EOF"),
     record [EvRead c 41 (inr io_EOF)] w).
Proof.
  intros I. unfold establishProxy. run. rewrite I. reflexivity.
Qed.

Lemma establishProxy_decode_fails net c w f fs e :
  inbox w c = f :: fs ->
  snd (ParseRequest (firstn 41 f)) = Some e ->
  fst (establishProxy net (Some c) w) = Done (None, Some e).
Proof.
  intros I P. unfold establishProxy. run. rewrite I. run.
  destruct (ParseRequest (firstn 41 f)) as [req err]. cbn [snd] in P.
  rewrite P. reflexivity.
Qed.

(** C9.  In every session the handshake reads once from the client,
    into a buffer of 41 bytes, and the trace of the handshake holds no
    other read.  When the read fails nothing is decoded.  Otherwise what
    is decoded is the first 41 bytes of the first fragment: the rest of
    that fragment and the later fragments stay unread, a decoding error
    of that prefix is the error of the handshake, and the handshake
    returns the same and does the same whatever the inboxes hold beyond
    that prefix. *)
Theorem C9_one_read_of_41_bytes :
  forall (net : Net) (c : ConnId) (w : World),
    exists (res : list byte + error) (later : list Event),
      trace (snd (establishProxy net (Some c) w))
      = trace w ++ EvRead c 41 res :: later /\
      Forall (fun e => is_read e = false) later /\
      match inbox w c with
      | [] =>
          res = inr io_EOF /\
          fst (establishProxy net (Some c) w)
          = Done (None, Some "failed to read from connect: EOF")
      | f :: fs =>
          res = inl (firstn 41 f) /\
          inbox (snd (establishProxy net (Some c) w)) c = unread 41 f fs /\
          (forall e : error,
              snd (ParseRequest (firstn 41 f)) = Some e ->
              fst (establishProxy net (Some c) w) = Done (None, Some e)) /\
          (forall (i : ConnId -> list (list byte)) (f' : list byte)
                  (fs' : list (list byte)),
              i c = f' :: fs' ->
              firstn 41 f' = firstn 41 f ->
              fst (establishProxy net (Some c) (with_inbox w i))
              = fst (establishProxy net (Some c) w) /\
              trace (snd (establishProxy net (Some c) (with_inbox w i)))
              = trace (snd (establishProxy net (Some c) w)))
      end.
Proof.
  intros net c w.
  destruct (inbox w c) as [|f fs] eqn:I.
  - exists (inr io_EOF), [].
    rewrite (establishProxy_read_fails net c w I).
    repeat split. constructor.
  - destruct (establishProxy_after_read net (Some c)) as (K & E & Q).
    pose (w1 := with_trace
                  (with_inbox w (fun c' => if Nat.eqb c' c then unread 41 f fs
                                           else inbox w c'))
                  (trace w ++ [EvRead c 41 (inl (firstn 41 f))])).
    assert (R : establishProxy net (Some c) w = K (firstn 41 f, None) w1).
    { rewrite E. unfold bind, Conn_Read. rewrite I. reflexivity. }
    destruct (Q (firstn 41 f, None) w1) as (Inb & (later & T & F) & N).
    exists (inl (firstn 41 f)), later.
    split.
    { rewrite R, T. unfold w1. cbn [trace with_trace].
      rewrite <- app_assoc. reflexivity. }
    split; [exact F |]. split; [reflexivity |]. split.
    { rewrite R, Inb. unfold w1. cbn [inbox with_trace with_inbox].
      rewrite Nat.eqb_refl. reflexivity. }
    split.
    { intros e P. exact (establishProxy_decode_fails net c w f fs e I P). }
    intros i f' fs' I' P'.
    assert (R' : establishProxy net (Some c) (with_inbox w i)
                 = K (firstn 41 f, None)
                     (with_inbox w1 (fun c' => if Nat.eqb c' c
                                               then unread 41 f' fs'
                                               else i c'))).
    { rewrite E. unfold bind, Conn_Read. cbn [inbox with_inbox].
      rewrite I', P'. reflexivity. }
    rewrite R', N, R. split; reflexivity.
Qed.

(** A request of 50 bytes that is valid as a whole is refused, because
    its first 41 bytes are not: the second NUL is beyond them. *)
Example request_longer_than_the_buffer :
  List.length Fixture.long_request = 50%nat /\
  snd (ParseRequest Fixture.long_request) = None /\
  fst (establishProxy Fixture.net (Some 1%nat)
         (Fixture.world_long [Fixture.long_request]))
  = Done (None, Some MalformedExtendedRequest).
Proof. repeat split. Qed.

(** A request that arrives in two fragments is decoded from the first
    one, here five bytes, and refused. *)
Example request_in_two_fragments :
  fst (establishProxy Fixture.net (Some 1%nat)
         (Fixture.world_long [firstn 5 Fixture.connect8;
                              skipn 5 Fixture.connect8]))
  = Done (None, Some MalformedRequest) /\
  inbox (snd (establishProxy Fixture.net (Some 1%nat)
                (Fixture.world_long [firstn 5 Fixture.connect8;
                                     skipn 5 Fixture.connect8]))) 1%nat
  = [skipn 5 Fixture.connect8].
Proof. repeat split. Qed.

(** * Further properties of the code *)

(** ** The decoder, case by case *)

Lemma ParseRequest_bad_command (b : list byte) :
  (9 <= List.length b)%nat ->
  idx b 0 = x04 ->
  idx b 1 <> x01 ->
  idx b 1 <> x02 ->
  ParseRequest b
  = (Request.mk x04 x00 0 "" false "", Some UnsupportedCommand).
Proof.
  intros L V C1 C2. unfold ParseRequest.
  destruct (Nat.ltb_spec (List.length b) 9) as [Lt | _]; [lia |].
  rewrite V. change (bne Version4 Version4) with false. cbv iota.
  apply bne_neq in C1, C2. unfold CmdConnect, CmdBind. rewrite C1, C2.
  reflexivity.
Qed.

Lemma byte_eq_cases (a b : byte) : a = b \/ a <> b.
Proof. destruct (Byte.byte_eq_dec a b); [left | right]; assumption. Qed.

Lemma sentinel_cases (b : list byte) :
  extension_sentinel b \/ ~ extension_sentinel b.
Proof.
  unfold extension_sentinel.
  destruct (byte_eq_cases (idx b 4) x00), (byte_eq_cases (idx b 5) x00),
    (byte_eq_cases (idx b 6) x00), (byte_eq_cases (idx b 7) x00);
    tauto.
Qed.

Lemma three_segments (bs : list (list byte)) :
  List.length bs = 3%nat -> exists x y z, bs = [x; y; z].
Proof.
  destruct bs as [|x [|y [|z [|u tl]]]]; cbn; try discriminate.
  intros _. exists x, y, z. reflexivity.
Qed.

Lemma ParseRequest_cases (b : list byte) : ParseCase b (ParseRequest b).
Proof.
  destruct (Nat.ltb_spec (List.length b) 9) as [Lt | Ge].
  { replace (ParseRequest b) with (Request.zero, Some MalformedRequest).
    - apply PcShort. exact Lt.
    - unfold ParseRequest.
      destruct (Nat.ltb_spec (List.length b) 9); [reflexivity | lia]. }
  destruct (byte_eq_cases (idx b 0) x04) as [V | V].
  2:{ replace (ParseRequest b) with (Request.zero, Some UnsupportedVersion).
      - apply PcVersion; assumption.
      - unfold ParseRequest.
        destruct (Nat.ltb_spec (List.length b) 9); [lia |].
        apply bne_neq in V. unfold Version4. rewrite V. reflexivity. }
  assert (CC : (idx b 1 = x01 \/ idx b 1 = x02)
               \/ (idx b 1 <> x01 /\ idx b 1 <> x02)).
  { destruct (byte_eq_cases (idx b 1) x01), (byte_eq_cases (idx b 1) x02);
      tauto. }
  destruct CC as [C | [C1 C2]].
  2:{ rewrite (ParseRequest_bad_command b Ge V C1 C2).
      apply PcCommand; assumption. }
  destruct (sentinel_cases b) as [S | S].
  - destruct (ParseRequest_extended b Ge V C S) as [_ Good].
    destruct (Nat.eq_dec (List.length (bytes_Split (skipn 8 b) x00)) 3)
      as [E3 | N3].
    + destruct (three_segments _ E3) as (x & y & z & E).
      rewrite (Good x y z E). apply (PcExtended b x y z); assumption.
    + rewrite (ParseRequest_header b Ge V C). cbv zeta.
      apply sentinel_test in S as S'. rewrite S'.
      apply Nat.eqb_neq in N3 as N3'. change NullByte with x00. rewrite N3'.
      apply PcSegments; assumption.
  - rewrite (ParseRequest_header b Ge V C). cbv zeta.
    apply sentinel_test_false in S as S'. rewrite S'.
    apply PcLiteral; assumption.
Qed.

(** X1.  Every input of at least 9 bytes with version byte 0x04 whose
    command byte is neither 0x01 nor 0x02 is refused with the error
    UnsupportedCommand; the request returned with it has its version
    set and nothing else. *)
Theorem unknown_command_is_refused :
  forall b : list byte,
    (9 <= List.length b)%nat ->
    idx b 0 = x04 ->
    idx b 1 <> x01 ->
    idx b 1 <> x02 ->
    snd (ParseRequest b) = Some UnsupportedCommand /\
    fst (ParseRequest b) = Request.mk x04 x00 0 "" false "".
Proof.
  intros b L V C1 C2. rewrite (ParseRequest_bad_command b L V C1 C2).
  split; reflexivity.
Qed.

Lemma count_NUL_segments (s : list byte) :
  List.length (bytes_Split s x00) = 3%nat
  <-> count_occ Byte.byte_eq_dec s x00 = 2%nat.
Proof. rewrite bytes_Split_length. lia. Qed.

(** X2.  The decoder accepts an input exactly when it has at least 9
    bytes, version byte 0x04, command byte 0x01 or 0x02 and, if its
    address bytes are the extension sentinel, exactly two NUL bytes from
    offset 8 on. *)
Theorem decoder_accepts_iff :
  forall b : list byte,
    snd (ParseRequest b) = None
    <-> (9 <= List.length b)%nat /\
        idx b 0 = x04 /\
        (idx b 1 = x01 \/ idx b 1 = x02) /\
        (extension_sentinel b ->
         count_occ Byte.byte_eq_dec (skipn 8 b) x00 = 2%nat).
Proof.
  intros b. split.
  - intros OK.
    destruct (ParseRequest_cases b) as
      [ L | L V | L V C1 C2 | L V C S N | i d t L V C S E | L V C S ];
      cbn [snd] in OK; try discriminate.
    + repeat split; try assumption. intros _.
      apply count_NUL_segments. rewrite E. reflexivity.
    + repeat split; try assumption. intros S'. contradiction.
  - intros (L & V & C & K).
    destruct (ParseRequest_cases b) as
      [ L' | L' V' | L' V' C1 C2 | L' V' C' S N | i d t L' V' C' S E
      | L' V' C' S ];
      cbn [snd]; try reflexivity; try lia; try contradiction.
    + destruct C; contradiction.
    + exfalso. apply N. apply count_NUL_segments. apply K. exact S.
Qed.

(** X3.  Whatever the input, an error of the decoder is one of its four
    errors. *)
Theorem decoder_errors_are_the_four :
  forall (b : list byte) (e : error),
    snd (ParseRequest b) = Some e ->
    e = MalformedRequest \/ e = UnsupportedVersion \/
    e = UnsupportedCommand \/ e = MalformedExtendedRequest.
Proof.
  intros b e E.
  destruct (ParseRequest_cases b); cbn [snd] in E;
    try discriminate; injection E as <-; tauto.
Qed.

(** X4.  Every request that the decoder returns without error has
    version 4, the command byte of the message, which is CONNECT or
    BIND, a port between 0 and 65535, an address that ends in a colon
    and that port in decimal, and is marked as extended exactly when the
    address bytes of the message are the sentinel. *)
Theorem decoded_request_is_well_formed :
  forall (b : list byte) (req : Request.t),
    ParseRequest b = (req, None) ->
    Request.Version req = x04 /\
    (Request.Cmd req = x01 \/ Request.Cmd req = x02) /\
    Request.Cmd req = idx b 1 /\
    0 <= Request.Port req <= 65535 /\
    (Request.IsV4A req = true <-> extension_sentinel b) /\
    exists host : string,
      Request.Address req = (host ++ ":" ++ Itoa (Request.Port req))%string.
Proof.
  intros b req E.
  destruct (ParseRequest_cases b) as
    [ L | L V | L V C1 C2 | L V C S N | i d t L V C S T | L V C S ];
    try discriminate; injection E as <-;
    cbn [Request.Version Request.Cmd Request.Port Request.IsV4A
         Request.Address].
  - split; [reflexivity |]. split; [exact C |]. split; [reflexivity |].
    split; [apply wire_port_range |]. split; [tauto |].
    eexists. reflexivity.
  - split; [reflexivity |]. split; [exact C |]. split; [reflexivity |].
    split; [apply wire_port_range |].
    split; [split; [discriminate | contradiction] |].
    eexists. reflexivity.
Qed.

(** ** The segments of a split *)

Lemma bytes_Split_whole (s : list byte) (sep : byte) :
  ~ In sep s -> bytes_Split s sep = [s].
Proof.
  induction s as [|c s IH]; intros NI; cbn; [reflexivity |].
  assert (N : beq c sep = false).
  { apply beq_neq. intros ->. apply NI. left. reflexivity. }
  rewrite N, IH; [reflexivity |].
  intros I. apply NI. right. exact I.
Qed.

(** The first segment holds no separator; either it is the whole
    message, or a separator follows it and the other segments are the
    split of what follows that separator. *)
Lemma bytes_Split_first (s : list byte) (sep : byte)
      (seg : list byte) (segs : list (list byte)) :
  bytes_Split s sep = seg :: segs ->
  ~ In sep seg /\
  ((segs = [] /\ s = seg) \/
   (exists rest, s = seg ++ sep :: rest /\ bytes_Split rest sep = segs)).
Proof.
  revert seg segs. induction s as [|c s IH]; intros seg segs E; cbn in E.
  - injection E as <- <-. split; [intros [] |]. left. split; reflexivity.
  - destruct (beq c sep) eqn:B.
    + apply beq_eq in B. subst c. injection E as <- <-.
      split; [intros [] |]. right. exists s. split; reflexivity.
    + apply beq_neq in B.
      destruct (bytes_Split s sep) as [|seg' segs'] eqn:E'.
      * exfalso. exact (bytes_Split_not_nil s sep E').
      * injection E as <- <-.
        destruct (IH seg' segs' eq_refl) as (NI & K).
        split.
        { intros [-> | I]; [apply B; reflexivity | exact (NI I)]. }
        destruct K as [[-> ->] | (rest & -> & R)].
        -- left. split; reflexivity.
        -- right. exists rest. split; [reflexivity | exact R].
Qed.

Lemma bytes_Split_three (s : list byte) (sep : byte) (x y z : list byte) :
  bytes_Split s sep = [x; y; z] ->
  s = x ++ sep :: y ++ sep :: z /\
  ~ In sep x /\ ~ In sep y /\ ~ In sep z.
Proof.
  intros E.
  destruct (bytes_Split_first s sep x [y; z] E) as (Nx & [[D _] | (r1 & -> & E1)]);
    [discriminate |].
  destruct (bytes_Split_first r1 sep y [z] E1) as (Ny & [[D _] | (r2 & -> & E2)]);
    [discriminate |].
  destruct (bytes_Split_first r2 sep z [] E2) as (Nz & [[_ ->] | (r3 & _ & E3)]).
  - repeat split; assumption.
  - exfalso. exact (bytes_Split_not_nil r3 sep E3).
Qed.

(** X5.  A message made of a valid 8-byte header with the sentinel
    address, an identity, a NUL, a domain name, a NUL and further bytes,
    none of the three holding a NUL, is decoded to that identity and
    that domain name with the port of the header; the bytes after the
    second NUL are ignored. *)
Theorem extension_layout_is_decoded :
  forall hdr identity domainName trailing : list byte,
    List.length hdr = 8%nat ->
    idx hdr 0 = x04 ->
    idx hdr 1 = x01 \/ idx hdr 1 = x02 ->
    extension_sentinel hdr ->
    ~ In x00 identity ->
    ~ In x00 domainName ->
    ~ In x00 trailing ->
    ParseRequest (hdr ++ identity ++ x00 :: domainName ++ x00 :: trailing)
    = (Request.mk x04 (idx hdr 1) (wire_port hdr)
         (string_of_bytes domainName ++ ":" ++ Itoa (wire_port hdr))
         true
         (string_of_bytes identity),
       None).
Proof.
  intros hdr identity domainName trailing L V C S NI ND NT.
  destruct hdr as [|h0 [|h1 [|h2 [|h3 [|h4 [|h5 [|h6 [|h7 [|h8 tl]]]]]]]]];
    cbn in L; try lia. clear L.
  set (b := [h0; h1; h2; h3; h4; h5; h6; h7]
            ++ identity ++ x00 :: domainName ++ x00 :: trailing).
  assert (Lb : (9 <= List.length b)%nat).
  { unfold b. rewrite !length_app. cbn. lia. }
  assert (Sb : extension_sentinel b) by exact S.
  destruct (ParseRequest_extended b Lb V C Sb) as [_ T].
  apply (T identity domainName trailing).
  unfold b. cbn [app skipn].
  rewrite (bytes_Split_field identity _ x00 NI).
  rewrite (bytes_Split_field domainName _ x00 ND).
  rewrite (bytes_Split_whole trailing x00 NT).
  reflexivity.
Qed.

(** X6.  Conversely, when a message with the sentinel address is
    decoded without error, its bytes from offset 8 are an identity, a
    NUL, a domain name, a NUL and a last segment, none of the three
    holding a NUL, and the request carries that identity and that
    domain name. *)
Theorem decoded_extension_fields_are_delimited :
  forall (b : list byte) (req : Request.t),
    extension_sentinel b ->
    ParseRequest b = (req, None) ->
    exists identity domainName trailing : list byte,
      skipn 8 b = identity ++ x00 :: domainName ++ x00 :: trailing /\
      ~ In x00 identity /\ ~ In x00 domainName /\ ~ In x00 trailing /\
      Request.UserId req = string_of_bytes identity /\
      Request.Address req
      = (string_of_bytes domainName ++ ":" ++ Itoa (Request.Port req))%string.
Proof.
  intros b req S E.
  destruct (ParseRequest_cases b) as
    [ L | L V | L V C1 C2 | L V C S' N | i d t L V C S' T | L V C S' ];
    try discriminate; [| contradiction].
  injection E as <-.
  destruct (bytes_Split_three _ _ _ _ _ T) as (Eq & Ni & Nd & Nt).
  exists i, d, t. repeat split; assumption.
Qed.

(** ** The encoder, for every reply *)

Lemma To4_mapped (ip : Go.IP) :
  List.length ip = 16%nat ->
  (isZeros (slice ip 0 10) && beq (idx ip 10) xff && beq (idx ip 11) xff
   = true
   <-> exists a b c d : byte, ip = IPv4 a b c d).
Proof.
  intros L.
  destruct ip as [|b0 [|b1 [|b2 [|b3 [|b4 [|b5 [|b6 [|b7 [|b8 [|b9 [|b10
    [|b11 [|b12 [|b13 [|b14 [|b15 [|b16 tl]]]]]]]]]]]]]]]]];
    cbn in L; try lia. clear L.
  unfold isZeros, slice, idx. cbn [firstn skipn forallb nth Nat.sub].
  rewrite !andb_true_iff, !beq_eq. split.
  - intros (((-> & -> & -> & -> & -> & -> & -> & -> & -> & -> & _) & ->) & ->).
    exists b12, b13, b14, b15. reflexivity.
  - intros (a & b & c & d & E). unfold IPv4 in E.
    injection E as -> -> -> -> -> -> -> -> -> -> -> -> _ _ _ _.
    repeat split.
Qed.

Lemma To4_some (ip : Go.IP) :
  List.length (To4 ip) = 4%nat
  <-> List.length ip = 4%nat \/ exists a b c d : byte, ip = IPv4 a b c d.
Proof.
  unfold To4.
  destruct (Nat.eqb_spec (List.length ip) IPv4len) as [E4 | N4].
  - split; [intros _; left; exact E4 | intros _; exact E4].
  - destruct (Nat.eqb_spec (List.length ip) IPv6len) as [E16 | N16].
    + cbn [andb]. pose proof (To4_mapped ip E16) as M.
      destruct (isZeros (slice ip 0 10) && beq (idx ip 10) xff
                && beq (idx ip 11) xff).
      * split; [intros _; right; apply M; reflexivity |].
        intros _. unfold slice. rewrite length_firstn, length_skipn, E16.
        reflexivity.
      * split; [discriminate |].
        intros [E4 | X]; [contradiction |].
        apply M in X. discriminate.
    + cbn [andb]. split; [discriminate |].
      intros [E4 | (a & b & c & d & ->)]; [contradiction |].
      exfalso. apply N16. reflexivity.
Qed.

(** X7.  The encoding of a reply has 8 bytes exactly when its address
    has 4 bytes or is the 16-byte form of an IPv4 address; for every
    other address (absent, IPv6, of another length) it has 4 bytes: the
    address is left out. *)
Theorem reply_has_eight_bytes_iff_ipv4 :
  forall r : Reply.t,
    (List.length (Reply.ToBytes r) = 8%nat
     <-> List.length (Reply.IP r) = 4%nat
         \/ exists a b c d : byte, Reply.IP r = IPv4 a b c d) /\
    (List.length (Reply.ToBytes r) = 8%nat
     \/ List.length (Reply.ToBytes r) = 4%nat).
Proof.
  intros r. rewrite ToBytes_layout, length_app. cbn [List.length].
  rewrite <- To4_some.
  destruct (To4_length (Reply.IP r)) as [E | E]; rewrite E;
    cbn [List.length]; split; try lia; split; intros; lia.
Qed.

Lemma sanitized_valid (cd : byte) :
  sanitized cd = x5a \/ sanitized cd = x5b \/ sanitized cd = x5c
  \/ sanitized cd = x5d.
Proof.
  unfold sanitized.
  destruct (beq cd x5a) eqn:A; [apply beq_eq in A; tauto |].
  destruct (beq cd x5b) eqn:B; [apply beq_eq in B; tauto |].
  destruct (beq cd x5c) eqn:C; [apply beq_eq in C; tauto |].
  destruct (beq cd x5d) eqn:D; [apply beq_eq in D; tauto |].
  cbn. tauto.
Qed.

(** X8.  Whatever the reply, its encoding starts with a zero byte and
    a status byte among 0x5a, 0x5b, 0x5c, 0x5d, and the status byte is
    0x5a (granted) exactly when the reply code is. *)
Theorem reply_status_is_always_a_protocol_code :
  forall r : Reply.t,
    idx (Reply.ToBytes r) 0 = x00 /\
    (idx (Reply.ToBytes r) 1 = x5a \/ idx (Reply.ToBytes r) 1 = x5b \/
     idx (Reply.ToBytes r) 1 = x5c \/ idx (Reply.ToBytes r) 1 = x5d) /\
    (idx (Reply.ToBytes r) 1 = x5a <-> Reply.Cd r = x5a).
Proof.
  intros r. rewrite ToBytes_layout. unfold idx. cbn [app nth].
  split; [reflexivity |]. split; [apply sanitized_valid |].
  destruct (sanitized_spec (Reply.Cd r)) as [Keep Repl].
  split.
  - intros E.
    destruct (byte_eq_cases (Reply.Cd r) x5a) as [A | A]; [exact A |].
    destruct (byte_eq_cases (Reply.Cd r) x5b) as [B | B];
      [rewrite Keep in E by tauto; exact E |].
    destruct (byte_eq_cases (Reply.Cd r) x5c) as [C | C];
      [rewrite Keep in E by tauto; exact E |].
    destruct (byte_eq_cases (Reply.Cd r) x5d) as [D | D];
      [rewrite Keep in E by tauto; exact E |].
    rewrite (Repl A B C D) in E. discriminate.
  - intros E. rewrite Keep by tauto. exact E.
Qed.

(** X9.  The big-endian number in bytes 2-3 of an encoded reply, as the
    decoder reads a port, is the port of the reply modulo 65536, hence
    the port itself when it is between 0 and 65535; replies that differ
    only by a multiple of 65536 in the port have the same encoding. *)
Theorem reply_port_round_trip :
  forall r : Reply.t,
    BigEndian_Uint16 (slice (Reply.ToBytes r) 2 4) = Reply.Port r mod 65536 /\
    (0 <= Reply.Port r <= 65535 ->
     BigEndian_Uint16 (slice (Reply.ToBytes r) 2 4) = Reply.Port r) /\
    (forall r' : Reply.t,
        Reply.Cd r' = Reply.Cd r -> Reply.IP r' = Reply.IP r ->
        Reply.Port r' mod 65536 = Reply.Port r mod 65536 ->
        Reply.ToBytes r' = Reply.ToBytes r).
Proof.
  intros r.
  assert (A : BigEndian_Uint16 (slice (Reply.ToBytes r) 2 4)
              = Reply.Port r mod 65536).
  { rewrite ToBytes_layout. unfold slice. cbn [app skipn firstn Nat.sub].
    rewrite BigEndian_Uint16_value. apply port_bytes_value. }
  split; [exact A |]. split.
  - intros R. rewrite A. apply Z.mod_small. lia.
  - intros r' C I P. rewrite !ToBytes_layout. unfold uint16.
    rewrite C, I, P. reflexivity.
Qed.

(** ** Computations within a budget *)

Lemma weight_app mu es es' :
  weight mu (es ++ es') = (weight mu es + weight mu es')%nat.
Proof. unfold weight. rewrite map_app, list_sum_app. reflexivity. Qed.

Lemma tame_ret mu n {A} (a : A) : tame mu n (ret a).
Proof.
  intros w. cbn. repeat split; try discriminate.
  exists []. split; [symmetry; apply app_nil_r | cbn; lia].
Qed.

Lemma tame_panic mu n {A} (msg : string) : tame mu n (@panic A msg).
Proof.
  intros w. cbn. repeat split; try discriminate.
  exists []. split; [symmetry; apply app_nil_r | cbn; lia].
Qed.

Lemma tame_emit mu n (e : Event) : (mu e <= n)%nat -> tame mu n (emit e).
Proof.
  intros B w. cbn. repeat split; try discriminate.
  exists [e]. split; [reflexivity | cbn; lia].
Qed.

Lemma tame_bind mu n1 n2 n {A B} (m : M A) (k : A -> M B) :
  tame mu n1 m -> (forall a, tame mu n2 (k a)) -> (n1 + n2 <= n)%nat ->
  tame mu n (bind m k).
Proof.
  intros Tm Tk Le w. unfold bind.
  destruct (Tm w) as (L & C & NC & es & T & W).
  destruct (m w) as [o w1]. cbn [fst snd] in *.
  destruct o as [a | msg | msg].
  - destruct (Tk a w1) as (L' & C' & NC' & es' & T' & W').
    split; [congruence |]. split; [congruence |]. split; [exact NC' |].
    exists (es ++ es'). rewrite T', T, app_assoc, weight_app.
    split; [reflexivity | lia].
  - split; [exact L |]. split; [exact C |]. split; [discriminate |].
    exists es. split; [exact T | lia].
  - exfalso. exact (NC msg eq_refl).
Qed.

Lemma tame_defer mu n1 n2 n {A} (d : M unit) (body : M A) :
  tame mu n1 body -> tame mu n2 d -> (n1 + n2 <= n)%nat ->
  tame mu n (defer d body).
Proof.
  intros Tb Td Le w. unfold defer.
  destruct (Tb w) as (L & C & NC & es & T & W).
  destruct (body w) as [o w1]. cbn [fst snd] in *.
  destruct (Td w1) as (L' & C' & NC' & es' & T' & W').
  destruct o as [a | msg | msg]; [| | exfalso; exact (NC msg eq_refl)].
  all: destruct (d w1) as [o' w2]; cbn [fst snd] in *.
  all: destruct o' as [u | msg' | msg'];
    [| | exfalso; exact (NC' msg' eq_refl)].
  all: cbn [fst snd].
  all: split; [congruence |]; split; [congruence |];
    split; [discriminate |].
  all: exists (es ++ es'); rewrite T', T, app_assoc, weight_app;
    split; [reflexivity | lia].
Qed.

Lemma tame_weaken mu n n' {A} (m : M A) :
  tame mu n m -> (n <= n')%nat -> tame mu n' m.
Proof.
  intros T Le w. destruct (T w) as (L & C & NC & es & E & W).
  repeat split; try assumption. exists es. split; [exact E | lia].
Qed.

Lemma tame_Conn_Read mu n conn cap :
  (forall c r, mu (EvRead c cap r) <= n)%nat -> tame mu n (Conn_Read conn cap).
Proof.
  intros B. destruct conn as [c |]; [| apply tame_panic].
  intros w. unfold Conn_Read.
  destruct (inbox w c) as [|f fs]; cbn; repeat split; try discriminate;
    eexists [_]; (split; [reflexivity |]); cbn; rewrite Nat.add_0_r; apply B.
Qed.

Lemma tame_Conn_Write mu n net conn data :
  (forall c r, conn = Some c -> mu (EvWrite c data r) <= n)%nat ->
  tame mu n (Conn_Write net conn data).
Proof.
  intros B. destruct conn as [c |]; [| apply tame_panic].
  intros w. cbn. repeat split; try discriminate.
  eexists [_]. split; [reflexivity |]. cbn. rewrite Nat.add_0_r.
  apply B. reflexivity.
Qed.

Lemma tame_Listener_Accept mu n net lis :
  (forall l r,
      mu (EvTimerFired l) + mu (EvCloseLis l) + mu (EvAccept l r) <= n)%nat ->
  tame mu n (Listener_Accept net lis).
Proof.
  intros B. destruct lis as [l |]; [| apply tame_panic].
  intros w. unfold Listener_Accept.
  destruct (inbound net l) as [c |]; cbn; repeat split; try discriminate.
  - eexists [_]. split; [reflexivity |]. cbn.
    specialize (B l (inl c)). lia.
  - eexists [_; _; _]. split; [rewrite <- !app_assoc; reflexivity |]. cbn.
    specialize (B l (inr ErrClosed)). lia.
Qed.

Ltac tame_side :=
  intros; subst; cbn;
  repeat match goal with
         | H : Some _ = Some _ |- _ => injection H as H; subst
         end;
  rewrite ?Nat.eqb_refl;
  repeat match goal with
         | |- context [Nat.eqb ?a ?b] => destruct (Nat.eqb a b)
         end;
  lia.

Ltac tame_budgets k n :=
  lazymatch n with
  | O => solve [k O O]
  | S O => first [solve [k O (S O)] | solve [k (S O) O]]
  | S (S O) =>
      first [solve [k O (S (S O))] | solve [k (S O) (S O)]
            | solve [k (S (S O)) O]]
  end.

Ltac tame_auto :=
  cbv beta zeta;
  lazymatch goal with
  | |- tame _ _ (ret _) => apply tame_ret
  | |- tame _ _ (panic _) => apply tame_panic
  | |- tame _ _ (emit _) => apply tame_emit; tame_side
  | |- tame _ _ (Conn_Read _ _) => apply tame_Conn_Read; tame_side
  | |- tame _ _ (Conn_Write _ _ _) => apply tame_Conn_Write; tame_side
  | |- tame _ _ (Listener_Accept _ _) => apply tame_Listener_Accept; tame_side
  | |- tame ?mu ?n (bind _ _) =>
      tame_budgets
        ltac:(fun n1 n2 =>
                apply (tame_bind mu n1 n2 n);
                [tame_auto | intros ?; tame_auto | lia]) n
  | |- tame ?mu ?n (defer _ _) =>
      tame_budgets
        ltac:(fun n1 n2 =>
                apply (tame_defer mu n1 n2 n);
                [tame_auto | tame_auto | lia]) n
  | |- tame _ _ (match ?x with _ => _ end) => destruct x; tame_auto
  end.

Ltac tame_unfold :=
  cbv beta delta
    [Debugf Infof Warnf Conn_Close Conn_RemoteAddr Conn_LocalAddr
     Listener_Close Listener_Addr net_Dial net_Listen
     establishConnect establishBind establishProxy transfer].

Lemma establishProxy_dials_once net conn :
  tame dials 1 (establishProxy net conn).
Proof. tame_unfold. tame_auto. Qed.

Lemma establishProxy_listens_once net conn :
  tame listens 1 (establishProxy net conn).
Proof. tame_unfold. tame_auto. Qed.

Lemma establishProxy_accepts_once net conn :
  tame accepts 1 (establishProxy net conn).
Proof. tame_unfold. tame_auto. Qed.

Lemma establishProxy_writes_twice net c :
  tame (writes_to c) 2 (establishProxy net (Some c)).
Proof. tame_unfold. tame_auto. Qed.

Lemma establishProxy_writes_to_client net c :
  tame (writes_elsewhere c) 0 (establishProxy net (Some c)).
Proof. tame_unfold. tame_auto. Qed.

Lemma establishProxy_one_attempt net conn :
  tame (fun e => dials e + listens e)%nat 1 (establishProxy net conn).
Proof. tame_unfold. tame_auto. Qed.

Lemma weight_sum mu nu es :
  weight (fun e => mu e + nu e)%nat es = (weight mu es + weight nu es)%nat.
Proof.
  induction es as [|e es IH]; [reflexivity |].
  change (((mu e + nu e) + weight (fun e => mu e + nu e) es)%nat
          = ((mu e + weight mu es) + (nu e + weight nu es))%nat).
  rewrite IH. lia.
Qed.

(** X10.  In every run of the handshake there is at most one dial or
    one listen, never both, and at most one accept: nothing is
    retried. *)
Theorem handshake_makes_a_single_attempt :
  forall (net : Net) (conn : Conn) (w : World),
    exists es : list Event,
      trace (snd (establishProxy net conn w)) = trace w ++ es /\
      (weight dials es + weight listens es <= 1)%nat /\
      (weight accepts es <= 1)%nat.
Proof.
  intros net conn w.
  destruct (establishProxy_one_attempt net conn w) as (_ & _ & _ & es & T & W).
  destruct (establishProxy_accepts_once net conn w)
    as (_ & _ & _ & es' & T' & W').
  exists es. split; [exact T |].
  rewrite weight_sum in W. split; [exact W |].
  rewrite T in T'. apply app_inv_head in T'. subst es'. exact W'.
Qed.

(** X11.  In every run of the handshake all writes are on the client
    connection, and there are at most two of them. *)
Theorem handshake_writes_only_to_the_client :
  forall (net : Net) (c : ConnId) (w : World),
    exists es : list Event,
      trace (snd (establishProxy net (Some c) w)) = trace w ++ es /\
      weight (writes_elsewhere c) es = 0%nat /\
      (weight (writes_to c) es <= 2)%nat.
Proof.
  intros net c w.
  destruct (establishProxy_writes_to_client net c w)
    as (_ & _ & _ & es & T & W).
  destruct (establishProxy_writes_twice net c w)
    as (_ & _ & _ & es' & T' & W').
  exists es. split; [exact T |]. split; [lia |].
  rewrite T in T'. apply app_inv_head in T'. subst es'. exact W'.
Qed.

(** *** The session as a whole *)

Ltac session_unfold :=
  cbv beta delta
    [Debugf Infof Warnf Conn_Close Conn_RemoteAddr Conn_LocalAddr
     Listener_Close Listener_Addr net_Dial net_Listen
     establishConnect establishBind establishProxy transfer handleConn].

(** The session is its body followed by the two deferred calls. *)
Lemma handleConn_body net conn :
  exists body : M unit,
    handleConn net conn
    = defer (Conn_Close conn) (defer (emit EvWgDone) body) /\
    tame wg_dones 0 body.
Proof.
  eexists. split; [reflexivity |]. session_unfold. tame_auto.
Qed.

Lemma handleConn_no_wg_add net conn : tame wg_adds 0 (handleConn net conn).
Proof. session_unfold. tame_auto. Qed.

(** The events of a session. *)
Lemma handleConn_events :
  forall (net : Net) (c : ConnId) (w : World),
    exists es : list Event,
      trace (snd (handleConn net (Some c) w))
      = trace w ++ es ++ [EvWgDone; EvCloseConn c] /\
      weight wg_dones es = 0%nat /\
      weight wg_adds es = 0%nat /\
      (forall msg : string, fst (handleConn net (Some c) w) <> Crash msg) /\
      srv_lis (snd (handleConn net (Some c) w)) = srv_lis w /\
      srv_closed (snd (handleConn net (Some c) w)) = srv_closed w.
Proof.
  intros net c w.
  destruct (handleConn_body net (Some c)) as (body & E & Tb).
  destruct (handleConn_no_wg_add net (Some c) w)
    as (_ & _ & _ & es' & T' & W').
  set (r := handleConn net (Some c) w) in *.
  assert (Er : r = defer (Conn_Close (Some c)) (defer (emit EvWgDone) body) w)
    by (unfold r; rewrite E; reflexivity).
  cbv beta iota delta [defer Conn_Close emit] in Er.
  destruct (Tb w) as (L & C & NC & es & T & W).
  destruct (body w) as [o w1]. cbn [fst snd] in *.
  exists es.
  destruct o as [u | msg | msg]; [| | exfalso; exact (NC msg eq_refl)];
    cbv beta iota in Er; rewrite Er in *;
    cbn [fst snd trace srv_lis srv_closed with_trace] in *.
  all: assert (Tr : (trace w1 ++ [EvWgDone]) ++ [EvCloseConn c]
                    = trace w ++ es ++ [EvWgDone; EvCloseConn c])
    by (rewrite T, <- !app_assoc; reflexivity).
  all: split; [exact Tr |]; split; [lia |].
  all: rewrite Tr in T'; apply app_inv_head in T'; subst es'.
  all: rewrite weight_app in W'.
  all: split; [lia |]; split; [discriminate |]; split; assumption.
Qed.

(** X12.  Whatever happens in a session, it releases the wait group
    exactly once and then closes the client connection; these are its
    last two events, also when it panics.  It changes no field of the
    server and does not by itself end the process. *)
Theorem session_always_releases_and_closes :
  forall (net : Net) (c : ConnId) (w : World),
    exists es : list Event,
      trace (snd (handleConn net (Some c) w))
      = trace w ++ es ++ [EvWgDone; EvCloseConn c] /\
      weight wg_dones es = 0%nat /\
      weight wg_adds es = 0%nat /\
      (forall msg : string, fst (handleConn net (Some c) w) <> Crash msg) /\
      srv_lis (snd (handleConn net (Some c) w)) = srv_lis w /\
      srv_closed (snd (handleConn net (Some c) w)) = srv_closed w.
Proof. exact handleConn_events. Qed.

(** *** The listener of a BIND session *)

Lemma establishBind_body net conn req :
  exists body : Listener -> M (Conn * option error),
    establishBind net conn req
    = bind (net_Listen net "")
        (fun x => let '(lis, err) := x in
                  match err with
                  | Some e => ret (None, Some e)
                  | None => defer (Listener_Close lis) (body lis)
                  end) /\
    forall lis, tame listens 0 (body lis).
Proof.
  eexists. split; [reflexivity |]. intros lis. cbv beta.
  cbv beta delta [Listener_Addr]. tame_auto.
Qed.

(** X13.  A BIND session that got a listener closes it before
    [establishBind] returns, whatever happens in between: the closing
    is the last event, and no other listener is opened. *)
Theorem bind_listener_is_always_closed :
  forall (net : Net) (conn : Conn) (req : Request.t) (w : World) (l : LisId),
    listen net "" = inl l ->
    exists es : list Event,
      trace (snd (establishBind net conn req w))
      = trace w ++ EvListen "" (inl l) :: es ++ [EvCloseLis l] /\
      weight listens es = 0%nat /\
      (forall msg : string, fst (establishBind net conn req w) <> Crash msg).
Proof.
  intros net conn req w l Li.
  destruct (establishBind_body net conn req) as (body & E & Tb).
  rewrite E. cbv beta iota delta [bind net_Listen emit ret]. rewrite Li.
  cbv beta iota delta [defer Listener_Close emit].
  match goal with
  | |- context [body (Some l) ?w0] =>
      destruct (Tb (Some l) w0) as (_ & _ & NC & es & T & W);
      destruct (body (Some l) w0) as [o w1]
  end.
  cbn [fst snd trace with_trace] in *.
  exists es.
  destruct o as [a | msg | msg]; [| | exfalso; exact (NC msg eq_refl)];
    cbn [fst snd trace with_trace].
  all: split; [rewrite T, <- !app_assoc; reflexivity |].
  all: split; [lia | discriminate].
Qed.

(** *** The accept loop *)

Lemma ShutDown_events (w : World) :
  exists es : list Event,
    trace (snd (ShutDown w)) = trace w ++ es /\
    weight wg_adds es = 0%nat /\ weight wg_dones es = 0%nat /\
    (exists o, fst (ShutDown w) = Done o).
Proof.
  unfold ShutDown. destruct (srv_lis w) as [l |].
  - eexists [_; _; _; _]. cbn. rewrite <- !app_assoc.
    repeat split. eexists. reflexivity.
  - exists []. cbn. rewrite app_nil_r. repeat split. eexists. reflexivity.
Qed.

(** One round of the loop for a failed accept adds no event on the
    wait group before it goes on. *)
Lemma accept_failed_events l e (continue : M RunResult) :
  (forall w, exists es,
      trace (snd (continue w)) = trace w ++ es /\
      weight wg_adds es = weight wg_dones es) ->
  forall w, exists es,
    trace (snd (accept_failed l e continue w)) = trace w ++ es /\
    weight wg_adds es = weight wg_dones es.
Proof.
  intros K w. unfold accept_failed. run.
  destruct (srv_closed w).
  - eexists [_]. split; reflexivity.
  - match goal with
    | |- context [continue ?w0] => destruct (K w0) as (es & T & W)
    end.
    cbn [trace with_trace] in T.
    exists (EvAccept l (inr e) :: EvLog Warn "listener accept error: %v" :: es).
    split; [cbn [trace with_trace]; rewrite T, <- !app_assoc; reflexivity |].
    exact W.
Qed.

(** X14.  In every run of the accept loop, each session running to its
    end where it is started, the wait group is released as often as it
    is acquired, also when a session panics. *)
Theorem wait_group_is_balanced :
  forall (net : Net) (l : LisId) (arrivals : list Arrival) (w : World),
    exists es : list Event,
      trace (snd (accept_loop net l arrivals w)) = trace w ++ es /\
      weight wg_adds es = weight wg_dones es.
Proof.
  intros net l arrivals. induction arrivals as [|a rest IH]; intros w.
  - exists []. cbn. rewrite app_nil_r. split; reflexivity.
  - destruct a as [c | e |]; cbn [accept_loop].
    + cbv beta iota delta [bind emit Infof go].
      match goal with
      | |- context [handleConn net (Some c) ?w0] =>
          destruct (handleConn_events net c w0)
            as (es & T & Wd & Wa & NC & _);
          destruct (handleConn net (Some c) w0) as [o w1]
      end.
      cbn [fst snd trace with_trace] in *.
      destruct o as [u | msg | msg]; [| | exfalso; exact (NC msg eq_refl)].
      * destruct (IH w1) as (es' & T' & W').
        exists ([EvAccept l (inl c); EvLog Info "accept connection from: %v";
                 EvWgAdd] ++ es ++ [EvWgDone; EvCloseConn c] ++ es').
        split; [rewrite T', T, <- !app_assoc; reflexivity |].
        rewrite !weight_app, Wa, Wd, W'. cbn. lia.
      * exists ([EvAccept l (inl c); EvLog Info "accept connection from: %v";
                 EvWgAdd] ++ es ++ [EvWgDone; EvCloseConn c]).
        cbn [fst snd].
        split; [rewrite T, <- !app_assoc; reflexivity |].
        rewrite !weight_app, Wa, Wd. cbn. lia.
    + apply accept_failed_events. exact IH.
    + cbv beta iota delta [bind go ret].
      destruct (ShutDown_events w) as (es & T & Wa & Wd & (o & D)).
      destruct (ShutDown w) as [o' w1]. cbn [fst snd] in *. subst o'.
      destruct (accept_failed_events l ErrClosed
              (accept_loop net l rest) IH w1) as (es' & T' & W').
      exists (es ++ es').
      split; [rewrite T', T, app_assoc; reflexivity |].
      rewrite !weight_app. lia.
Qed.

(** *** When [Run] returns *)

(** [go] of a session: it ends the process or leaves the fields of the
    server as they were. *)
Lemma go_handleConn net c w :
  (exists msg, fst (go (handleConn net (Some c)) w) = Crash msg) \/
  (fst (go (handleConn net (Some c)) w) = Done tt /\
   srv_lis (snd (go (handleConn net (Some c)) w)) = srv_lis w /\
   srv_closed (snd (go (handleConn net (Some c)) w)) = srv_closed w).
Proof.
  unfold go.
  destruct (handleConn_events net c w) as (_ & _ & _ & _ & _ & L & C).
  destruct (handleConn net (Some c) w) as [o w1]. cbn [fst snd] in *.
  destruct o as [[] | msg | msg].
  - right. repeat split; assumption.
  - left. exists msg. reflexivity.
  - left. exists msg. reflexivity.
Qed.

Lemma accept_loop_without_shutdown net l arrivals :
  ~ In ShutDownCalled arrivals ->
  forall w,
    srv_closed w = false ->
    fst (accept_loop net l arrivals w) = Done Accepting \/
    exists msg, fst (accept_loop net l arrivals w) = Crash msg.
Proof.
  induction arrivals as [|a rest IH]; intros NS w C.
  - left. reflexivity.
  - assert (NS' : ~ In ShutDownCalled rest) by (intros I; apply NS; right; exact I).
    destruct a as [c | e |]; cbn [accept_loop].
    + cbv beta iota delta [bind emit Infof].
      match goal with
      | |- context [go (handleConn net (Some c)) ?w0] =>
          destruct (go_handleConn net c w0) as [(msg & E) | (E & _ & C')];
          destruct (go (handleConn net (Some c)) w0) as [o w1]
      end; cbn [fst snd srv_closed with_trace] in *; subst o.
      * right. exists msg. reflexivity.
      * apply (IH NS'). congruence.
    + unfold accept_failed. cbv beta iota delta [bind emit Warnf].
      cbn [srv_closed with_trace]. rewrite C.
      apply (IH NS'). exact C.
    + exfalso. apply NS. left. reflexivity.
Qed.

(** X15.  [Run] does not return while nobody calls [ShutDown]: once it
    has its listener, whatever connects and however often [Accept]
    fails, the loop is still accepting at the end of the arrivals,
    unless the panic of a session has ended the process. *)
Theorem Run_returns_only_after_ShutDown :
  forall (net : Net) (address : string) (arrivals : list Arrival)
         (w : World) (l : LisId),
    listen net address = inl l ->
    ~ In ShutDownCalled arrivals ->
    fst (Run net address arrivals w) = Done Accepting \/
    exists msg : string, fst (Run net address arrivals w) = Crash msg.
Proof.
  intros net address arrivals w l Li NS.
  unfold Run. cbv beta iota delta [bind net_Listen emit ret]. rewrite Li.
  cbv beta iota delta [defer Listener_Close emit bind Infof].
  match goal with
  | |- context [accept_loop net l arrivals ?w0] =>
      destruct (accept_loop_without_shutdown net l arrivals NS w0 eq_refl)
        as [E | (msg & E)];
      destruct (accept_loop net l arrivals w0) as [o w1]
  end; cbn [fst snd] in *; subst o.
  - left. reflexivity.
  - right. exists msg. reflexivity.
Qed.

Lemma accept_loop_shutdown net l pre post :
  ~ In ShutDownCalled pre ->
  forall w l',
    srv_closed w = false ->
    srv_lis w = Some l' ->
    accept_loop net l (pre ++ ShutDownCalled :: post) w
    = accept_loop net l (pre ++ [ShutDownCalled]) w /\
    ((fst (accept_loop net l (pre ++ [ShutDownCalled]) w)
      = Done (Returned "listencer closed") /\
      srv_closed (snd (accept_loop net l (pre ++ [ShutDownCalled]) w)) = true)
     \/ exists msg,
         fst (accept_loop net l (pre ++ [ShutDownCalled]) w) = Crash msg).
Proof.
  induction pre as [|a rest IH]; intros NS w l' C L.
  - cbn [app accept_loop].
    unfold accept_failed, ShutDown.
    cbv beta iota delta [bind go ret emit Infof]. rewrite L.
    cbn [fst snd srv_closed with_closed with_trace].
    split; [reflexivity |]. left. split; reflexivity.
  - assert (NS' : ~ In ShutDownCalled rest) by (intros I; apply NS; right; exact I).
    destruct a as [c | e |]; cbn [app accept_loop].
    + cbv beta iota delta [bind emit Infof].
      match goal with
      | |- context [go (handleConn net (Some c)) ?w0] =>
          destruct (go_handleConn net c w0) as [(msg & E) | (E & L' & C')];
          destruct (go (handleConn net (Some c)) w0) as [o w1]
      end; cbn [fst snd srv_closed srv_lis with_trace] in *; subst o.
      * split; [reflexivity |]. right. exists msg. reflexivity.
      * apply (IH NS' w1 l'); congruence.
    + unfold accept_failed. cbv beta iota delta [bind emit Warnf].
      cbn [srv_closed with_trace]. rewrite C.
      apply (IH NS' _ l'); assumption.
    + exfalso. apply NS. left. reflexivity.
Qed.

(** X16.  When [ShutDown] is called while [Run] is accepting, [Run]
    returns the error "listencer closed" with the server marked closed,
    unless the panic of a session has ended the process before; what
    would have arrived at the listener afterwards plays no part. *)
Theorem Run_returns_after_ShutDown :
  forall (net : Net) (address : string) (pre post : list Arrival)
         (w : World) (l : LisId),
    listen net address = inl l ->
    ~ In ShutDownCalled pre ->
    Run net address (pre ++ ShutDownCalled :: post) w
    = Run net address (pre ++ [ShutDownCalled]) w /\
    ((fst (Run net address (pre ++ ShutDownCalled :: post) w)
      = Done (Returned "listencer closed") /\
      srv_closed (snd (Run net address (pre ++ ShutDownCalled :: post) w))
      = true)
     \/ exists msg : string,
         fst (Run net address (pre ++ ShutDownCalled :: post) w) = Crash msg).
Proof.
  intros net address pre post w l Li NS.
  unfold Run. cbv beta iota delta [bind net_Listen emit ret]. rewrite Li.
  cbv beta iota delta [defer Listener_Close emit bind Infof].
  match goal with
  | |- context [accept_loop net l (pre ++ [ShutDownCalled]) ?w0] =>
      destruct (accept_loop_shutdown net l pre post NS w0 l eq_refl eq_refl)
        as (Eq & K)
  end.
  rewrite Eq. split; [reflexivity |].
  match goal with
  | |- context [accept_loop net l (pre ++ [ShutDownCalled]) ?w0] =>
      destruct (accept_loop net l (pre ++ [ShutDownCalled]) w0) as [o w1]
  end.
  cbn [fst snd] in *.
  destruct K as [(E & C) | (msg & E)]; subst o.
  - left. split; [reflexivity | exact C].
  - right. exists msg. reflexivity.
Qed.

(** *** The paths of a session *)

(** X17.  When the client has sent nothing, or what is read from it
    cannot be decoded, the session reads once, logs, releases the wait
    group and closes the connection: it returns normally and nothing is
    written to the client. *)
Theorem undecodable_request_gets_no_reply :
  forall (net : Net) (c : ConnId) (w : World),
    inbox w c = [] \/
    (exists f fs e, inbox w c = f :: fs /\
                    snd (ParseRequest (firstn 41 f)) = Some e) ->
    exists (res : list byte + error) (logs : list Event),
      fst (handleConn net (Some c) w) = Done tt /\
      trace (snd (handleConn net (Some c) w))
      = trace w ++ EvRead c 41 res :: logs ++ [EvWgDone; EvCloseConn c] /\
      Forall is_log logs /\
      sent_to c (trace (snd (handleConn net (Some c) w)))
      = sent_to c (trace w).
Proof.
  intros net c w [I | (f & fs & e & I & P)].
  - exists (inr io_EOF), [EvLog Warn "establish proxy error: %v"].
    unfold handleConn, establishProxy. run. rewrite I. run.
    cbn [fst snd]. split; [reflexivity |]. tidy_trace. split; [reflexivity |].
    split; [repeat constructor; eexists; eexists; reflexivity |].
    rewrite sent_to_app. cbn. apply app_nil_r.
  - exists (inl (firstn 41 f)),
      [EvLog Debug "read request from client %v: %v";
       EvLog Warn "establish proxy error: %v"].
    unfold handleConn, establishProxy. run. rewrite I. run.
    destruct (ParseRequest (firstn 41 f)) as [req err]. cbn [snd] in P.
    subst err. run.
    cbn [fst snd]. split; [reflexivity |]. tidy_trace. split; [reflexivity |].
    split; [repeat constructor; eexists; eexists; reflexivity |].
    rewrite sent_to_app. cbn. apply app_nil_r.
Qed.

Lemma establishConnect_connected net conn req r w :
  dial net (Request.Address req) = inl r ->
  establishConnect net conn req w
  = (Done (Some r, None), record [EvDial (Request.Address req) (inl r)] w).
Proof.
  intros D. unfold establishConnect. run. rewrite D. reflexivity.
Qed.

(** The writes counted after the read and its log. *)
Lemma writes_on_after_read c w r (t : list Event) :
  writes_on c
    (((trace w ++ [EvRead c 41 r]) ++
      [EvLog Debug "read request from client %v: %v"]) ++ t)
  = (writes_on c (trace w) + writes_on c t)%nat.
Proof. rewrite !writes_on_app. cbn [writes_on]. lia. Qed.

(** X18.  A CONNECT session whose dial succeeds, the local address of
    the new connection being known and the reply being written: the
    client is sent one GRANTED reply with the local port and address of
    the outbound connection, the relay runs between the client and that
    connection, then the outbound connection is closed, the wait group
    released and the client connection closed, in this order. *)
Theorem connect_session_relays_and_releases :
  forall (net : Net) (c : ConnId) (w : World) (f : list byte)
         (fs : list (list byte)) (req : Request.t) (r : ConnId)
         (addr : TCPAddr.t),
    inbox w c = f :: fs ->
    ParseRequest (firstn 41 f) = (req, None) ->
    Request.Cmd req = CmdConnect ->
    dial net (Request.Address req) = inl r ->
    local_addr net r = inl addr ->
    write_err net c (writes_on c (trace w)) = None ->
    exists w',
      handleConn net (Some c) w = (Done tt, w') /\
      trace w' = trace w ++
        [EvRead c 41 (inl (firstn 41 f));
         EvLog Debug "read request from client %v: %v";
         EvDial (Request.Address req) (inl r);
         EvWrite c
           (Reply.ToBytes
              (Reply.mk Granted (TCPAddr.Port addr) (To4 (TCPAddr.IP addr))))
           None;
         EvLog Info "proxy conn for client %v to target %v established";
         EvLog Info "begin transfer data between client %v and remote host %v";
         EvTransfer c r;
         EvLog Info "stop transfer data between client %v and remote host %v";
         EvCloseConn r;
         EvWgDone;
         EvCloseConn c].
Proof.
  intros net c w f fs req r addr I P C D A W.
  unfold handleConn, establishProxy.
  run. rewrite I. run. rewrite P. run. rewrite C.
  change (beq CmdConnect CmdConnect) with true. cbv beta iota.
  rewrite establishConnect_connected with (r := r) by exact D.
  run. rewrite A. run. unfold record at 1. cbn [trace with_trace].
  rewrite writes_on_after_read. cbn [writes_on]. rewrite Nat.add_0_r, W. run.
  unfold transfer. run.
  eexists. split; [reflexivity |]. tidy_trace.
  rewrite !writes_on_app. cbn [writes_on]. rewrite !Nat.add_0_r, W.
  reflexivity.
Qed.

(** X19.  When a CONNECT handshake fails after the dial has succeeded,
    because the local address cannot be resolved or the reply cannot be
    written, the handshake returns that error, closes the outbound
    connection as its last act, starts no relay and has delivered
    nothing to the client. *)
Theorem connect_late_failure_closes_the_peer :
  forall (net : Net) (c : ConnId) (w : World) (f : list byte)
         (fs : list (list byte)) (req : Request.t) (r : ConnId)
         (e : error),
    inbox w c = f :: fs ->
    ParseRequest (firstn 41 f) = (req, None) ->
    Request.Cmd req = CmdConnect ->
    dial net (Request.Address req) = inl r ->
    local_addr net r = inr e \/
    (exists addr, local_addr net r = inl addr /\
                  write_err net c (writes_on c (trace w)) = Some e) ->
    exists (w' : World) (es : list Event),
      establishProxy net (Some c) w = (Done (None, Some e), w') /\
      trace w' = trace w ++ es ++ [EvCloseConn r] /\
      weight transfers es = 0%nat /\
      sent_to c (trace w') = sent_to c (trace w).
Proof.
  intros net c w f fs req r e I P C D [A | (addr & A & W)].
  - unfold establishProxy.
    run. rewrite I. run. rewrite P. run. rewrite C.
    change (beq CmdConnect CmdConnect) with true. cbv beta iota.
    rewrite establishConnect_connected with (r := r) by exact D.
    run. rewrite A. run.
    eexists. eexists [_; _; _].
    split; [reflexivity |]. tidy_trace. split; [reflexivity |].
    split; [reflexivity |].
    rewrite sent_to_app. cbn. apply app_nil_r.
  - unfold establishProxy.
    run. rewrite I. run. rewrite P. run. rewrite C.
    change (beq CmdConnect CmdConnect) with true. cbv beta iota.
    rewrite establishConnect_connected with (r := r) by exact D.
    run. rewrite A. run. unfold record at 1. cbn [trace with_trace].
    rewrite writes_on_after_read. cbn [writes_on]. rewrite Nat.add_0_r, W.
    run.
    eexists. eexists [_; _; _; _].
    split; [reflexivity |]. tidy_trace.
    rewrite !writes_on_app. cbn [writes_on]. rewrite !Nat.add_0_r, W.
    split; [reflexivity |]. split; [reflexivity |].
    rewrite sent_to_app. cbn. apply app_nil_r.
Qed.

Lemma establishBind_accepted net c req l la r w :
  listen net "" = inl l ->
  lis_addr net l = inl la ->
  inbound net l = Some r ->
  write_err net c (writes_on c (trace w)) = None ->
  establishBind net (Some c) req w
  = (Done (Some r, None),
     record
       [EvListen "" (inl l);
        EvWrite c (Reply.ToBytes (Reply.mk Granted (TCPAddr.Port la) []))
          None;
        EvGoTimer l 120;
        EvAccept l (inl r);
        EvCloseLis l] w).
Proof.
  intros Li A In W.
  unfold establishBind. run. rewrite Li. run. rewrite A. run.
  rewrite writes_on_app. cbn [writes_on]. rewrite Nat.add_0_r, W.
  run. rewrite In. run.
  unfold record, with_trace. rewrite <- !app_assoc. reflexivity.
Qed.

(** X20.  A BIND session that an inbound connection reaches in time,
    both writes succeeding: the client is sent a first GRANTED reply
    with the port of the listener and no address, the listener is
    closed once the connection is accepted, the client is sent a second
    GRANTED reply with the local port and address of the accepted
    connection, and the relay runs between the client and the accepted
    connection, which is whatever connected: the address of the request
    is not compared with it. *)
Theorem bind_session_sends_two_replies :
  forall (net : Net) (c : ConnId) (w : World) (f : list byte)
         (fs : list (list byte)) (req : Request.t) (l : LisId)
         (la : TCPAddr.t) (r : ConnId) (addr : TCPAddr.t),
    inbox w c = f :: fs ->
    ParseRequest (firstn 41 f) = (req, None) ->
    Request.Cmd req = CmdBind ->
    listen net "" = inl l ->
    lis_addr net l = inl la ->
    inbound net l = Some r ->
    local_addr net r = inl addr ->
    write_err net c (writes_on c (trace w)) = None ->
    write_err net c (S (writes_on c (trace w))) = None ->
    exists w',
      handleConn net (Some c) w = (Done tt, w') /\
      trace w' = trace w ++
        [EvRead c 41 (inl (firstn 41 f));
         EvLog Debug "read request from client %v: %v";
         EvListen "" (inl l);
         EvWrite c (Reply.ToBytes (Reply.mk Granted (TCPAddr.Port la) []))
           None;
         EvGoTimer l 120;
         EvAccept l (inl r);
         EvCloseLis l;
         EvWrite c
           (Reply.ToBytes
              (Reply.mk Granted (TCPAddr.Port addr) (To4 (TCPAddr.IP addr))))
           None;
         EvLog Info "proxy conn for client %v to target %v established";
         EvLog Info "begin transfer data between client %v and remote host %v";
         EvTransfer c r;
         EvLog Info "stop transfer data between client %v and remote host %v";
         EvCloseConn r;
         EvWgDone;
         EvCloseConn c] /\
      sent_to c (trace w') = sent_to c (trace w) ++
        [Reply.ToBytes (Reply.mk Granted (TCPAddr.Port la) []);
         Reply.ToBytes
           (Reply.mk Granted (TCPAddr.Port addr) (To4 (TCPAddr.IP addr)))].
Proof.
  intros net c w f fs req l la r addr I P C Li A In LA W1 W2.
  assert (E : exists w',
    handleConn net (Some c) w = (Done tt, w') /\
    trace w' = trace w ++
      [EvRead c 41 (inl (firstn 41 f));
       EvLog Debug "read request from client %v: %v";
       EvListen "" (inl l);
       EvWrite c (Reply.ToBytes (Reply.mk Granted (TCPAddr.Port la) []))
         None;
       EvGoTimer l 120;
       EvAccept l (inl r);
       EvCloseLis l;
       EvWrite c
         (Reply.ToBytes
            (Reply.mk Granted (TCPAddr.Port addr) (To4 (TCPAddr.IP addr))))
         None;
       EvLog Info "proxy conn for client %v to target %v established";
       EvLog Info "begin transfer data between client %v and remote host %v";
       EvTransfer c r;
       EvLog Info "stop transfer data between client %v and remote host %v";
       EvCloseConn r;
       EvWgDone;
       EvCloseConn c]).
  { unfold handleConn, establishProxy.
    run. rewrite I. run. rewrite P. run. rewrite C.
    change (beq CmdBind CmdConnect) with false.
    change (beq CmdBind CmdBind) with true. cbv beta iota.
    rewrite establishBind_accepted with (l := l) (la := la) (r := r);
      [| exact Li | exact A | exact In
       | tidy_trace; rewrite !writes_on_app; cbn [writes_on];
         rewrite !Nat.add_0_r; exact W1].
    run. rewrite LA. run. unfold record at 1. cbn [trace with_trace].
    tidy_trace.
    rewrite !writes_on_app. cbn [writes_on]. rewrite Nat.eqb_refl.
    cbn [writes_on]. rewrite Nat.add_1_r, W2. run.
    unfold transfer. run.
    eexists. split; [reflexivity |]. tidy_trace.
    reflexivity. }
  destruct E as (w' & E & T).
  exists w'. split; [exact E |]. split; [exact T |].
  rewrite T, sent_to_app. cbn [sent_to]. rewrite Nat.eqb_refl. reflexivity.
Qed.

(** X21.  When a BIND session cannot listen, nothing is accepted and
    the handshake writes one REJECTED_OR_FAILED reply to the client.
    If that write succeeds the handshake returns the error of the
    listen, prefixed with the words "failed to establish connect for
    BIND request".  If that write fails the handshake calls [Close] on
    the nil connection that [establishBind] returned and panics: it
    returns nothing. *)
Theorem bind_without_listener_is_rejected :
  forall (net : Net) (c : ConnId) (w : World) (f : list byte)
         (fs : list (list byte)) (req : Request.t) (e : error),
    inbox w c = f :: fs ->
    ParseRequest (firstn 41 f) = (req, None) ->
    Request.Cmd req = CmdBind ->
    listen net "" = inr e ->
    exists w',
      establishProxy net (Some c) w
      = (match write_err net c (writes_on c (trace w)) with
         | None =>
             Done (None,
                   Some ("failed to establish connect for BIND request: "
                         ++ e)%string)
         | Some _ => Panic nil_dereference
         end,
         w') /\
      trace w' = trace w ++
        [EvRead c 41 (inl (firstn 41 f));
         EvLog Debug "read request from client %v: %v";
         EvListen "" (inr e);
         EvWrite c [x00; x5b; x00; x00]
           (write_err net c (writes_on c (trace w)))].
Proof.
  intros net c w f fs req e I P C Li.
  unfold establishProxy, establishBind.
  run. rewrite I. run. rewrite P. run. rewrite C.
  change (beq CmdBind CmdConnect) with false.
  change (beq CmdBind CmdBind) with true. cbv beta iota.
  run. rewrite Li. run.
  rewrite !writes_on_app. cbn [writes_on]. rewrite !Nat.add_0_r.
  destruct (write_err net c (writes_on c (trace w))) as [we |]; run;
    (eexists; split; [reflexivity |]); tidy_trace; reflexivity.
Qed.

(** The second case on a run: no listener and a reply that cannot be
    written. *)
Example bind_without_listener_and_broken_pipe :
  fst (establishProxy Scenario.net_no_listen_reply_lost (Some 4%nat)
         Fixture.world)
  = Panic nil_dereference /\
  trace (snd (establishProxy Scenario.net_no_listen_reply_lost (Some 4%nat)
                Fixture.world))
  = [EvRead 4%nat 41 (inl Fixture.bind1);
     EvLog Debug "read request from client %v: %v";
     EvListen "" (inr "too many open files");
     EvWrite 4%nat [x00; x5b; x00; x00] (Some "broken pipe")].
Proof. split; reflexivity. Qed.

(** *** Requests that do not fit the buffer *)

Lemma count_occ_firstn_le (n : nat) (s : list byte) (x : byte) :
  (count_occ Byte.byte_eq_dec (firstn n s) x
   <= count_occ Byte.byte_eq_dec s x)%nat.
Proof.
  revert n. induction s as [|c s IH]; intros [|n]; cbn; try lia.
  specialize (IH n). destruct (Byte.byte_eq_dec c x); lia.
Qed.

Lemma firstn_41_after_header (hdr rest : list byte) :
  List.length hdr = 8%nat ->
  firstn 41 (hdr ++ rest) = hdr ++ firstn 33 rest.
Proof.
  intros L. replace 41%nat with (List.length hdr + 33)%nat by lia.
  apply firstn_app_2.
Qed.

Lemma count_occ_absent (s : list byte) (x : byte) :
  ~ In x s -> count_occ Byte.byte_eq_dec s x = 0%nat.
Proof. intros NI. apply count_occ_not_In. exact NI. Qed.

(** X22.  A request in the extension form that is valid as a whole but
    longer than the 41 bytes of the buffer is refused by the handshake
    with MalformedExtendedRequest: identity and domain name together
    cannot exceed 31 bytes. *)
Theorem oversized_extension_request_is_refused :
  forall (net : Net) (c : ConnId) (w : World)
         (hdr identity domainName : list byte) (fs : list (list byte)),
    List.length hdr = 8%nat ->
    idx hdr 0 = x04 ->
    idx hdr 1 = x01 \/ idx hdr 1 = x02 ->
    extension_sentinel hdr ->
    ~ In x00 identity ->
    ~ In x00 domainName ->
    (41 < List.length (hdr ++ identity ++ x00 :: domainName ++ [x00]))%nat ->
    inbox w c = (hdr ++ identity ++ x00 :: domainName ++ [x00]) :: fs ->
    snd (ParseRequest (hdr ++ identity ++ x00 :: domainName ++ [x00])) = None /\
    fst (establishProxy net (Some c) w)
    = Done (None, Some MalformedExtendedRequest).
Proof.
  intros net c w hdr identity domainName fs L V C S NI ND Long I.
  split.
  { rewrite (extended_form_fields hdr identity domainName L V C S NI ND).
    reflexivity. }
  apply (establishProxy_decode_fails net c w _ fs _ I).
  rewrite (firstn_41_after_header _ _ L).
  set (body := identity ++ x00 :: domainName) in *.
  assert (Lb : (33 <= List.length body)%nat).
  { unfold body in *. rewrite !length_app in *. cbn [List.length] in *.
    rewrite !length_app in Long. cbn [List.length] in Long. lia. }
  replace (identity ++ x00 :: domainName ++ [x00]) with (body ++ [x00])
    by (unfold body; rewrite <- app_assoc; reflexivity).
  rewrite firstn_app.
  replace (33 - List.length body)%nat with 0%nat by lia.
  cbn [firstn]. rewrite app_nil_r.
  set (t := firstn 33 body).
  assert (Lt : List.length t = 33%nat).
  { unfold t. rewrite length_firstn. lia. }
  destruct hdr as [|h0 [|h1 [|h2 [|h3 [|h4 [|h5 [|h6 [|h7 [|h8 tl]]]]]]]]];
    cbn in L; try lia. clear L.
  cbn [app].
  set (b := h0 :: h1 :: h2 :: h3 :: h4 :: h5 :: h6 :: h7 :: t).
  assert (L9 : (9 <= List.length b)%nat).
  { unfold b. cbn [List.length]. lia. }
  destruct (ParseRequest_extended b L9 V C S) as [Bad _].
  apply Bad. unfold b. cbn [skipn].
  rewrite bytes_Split_length.
  pose proof (count_occ_firstn_le 33 body x00) as Le. fold t in Le.
  assert (One : count_occ Byte.byte_eq_dec body x00 = 1%nat).
  { unfold body. rewrite count_occ_app. cbn [count_occ].
    destruct (Byte.byte_eq_dec x00 x00) as [_ | N]; [| contradiction].
    rewrite !count_occ_absent by assumption. reflexivity. }
  lia.
Qed.

(** X23.  Of a request in the literal form of 41 bytes or more, what
    the handshake decodes, its first 41 bytes, is accepted, and the
    identity is the 32 bytes that follow the header. *)
Theorem oversized_literal_request_is_truncated :
  forall (hdr rest : list byte),
    List.length hdr = 8%nat ->
    idx hdr 0 = x04 ->
    idx hdr 1 = x01 \/ idx hdr 1 = x02 ->
    ~ extension_sentinel hdr ->
    (41 <= List.length (hdr ++ rest))%nat ->
    ParseRequest (firstn 41 (hdr ++ rest))
    = (Request.mk x04 (idx hdr 1) (wire_port hdr)
         (dotted [idx hdr 4; idx hdr 5; idx hdr 6; idx hdr 7] ++ ":"
          ++ Itoa (wire_port hdr))
         false
         (string_of_bytes (firstn 32 rest)),
       None).
Proof.
  intros hdr rest L V C S Long.
  rewrite (firstn_41_after_header _ _ L).
  assert (Lr : (33 <= List.length rest)%nat).
  { rewrite length_app in Long. lia. }
  set (t := firstn 33 rest).
  assert (Lt : List.length t = 33%nat).
  { unfold t. rewrite length_firstn. lia. }
  assert (T32 : firstn 32 t = firstn 32 rest).
  { unfold t. rewrite firstn_firstn. reflexivity. }
  destruct hdr as [|h0 [|h1 [|h2 [|h3 [|h4 [|h5 [|h6 [|h7 [|h8 tl]]]]]]]]];
    cbn in L; try lia. clear L.
  cbn [app].
  set (b := h0 :: h1 :: h2 :: h3 :: h4 :: h5 :: h6 :: h7 :: t).
  assert (L9 : (9 <= List.length b)%nat).
  { unfold b. cbn [List.length]. lia. }
  rewrite (ParseRequest_header b L9 V C). cbv zeta.
  assert (S' : ~ extension_sentinel b) by exact S.
  apply sentinel_test_false in S'. rewrite S'.
  replace (slice b 8 (List.length b - 1)) with (firstn 32 rest);
    [reflexivity |].
  unfold slice, b. cbn [skipn List.length]. rewrite Lt, <- T32.
  reflexivity.
Qed.

(** ** The construction of the server *)

Lemma last_of_nonempty {A : Type} (x : A) (l : list A) (d d' : A) :
  last (x :: l) d = last (x :: l) d'.
Proof.
  revert x. induction l as [|y l IH]; intros x; [reflexivity |].
  change (last (y :: l) d = last (y :: l) d'). apply IH.
Qed.

Lemma options_fold (Logger : Type) (ls : list (option Logger))
      (s : Config.Server Logger) :
  fold_left (fun s opt => opt s) (map (Config.WithLogger Logger) ls) s
  = Config.mk Logger (last ls (Config.logger Logger s))
      (Config.lis Logger s) (Config.closed Logger s).
Proof.
  revert s. induction ls as [|l ls IH]; intros s.
  - destruct s; reflexivity.
  - cbn [map fold_left]. rewrite IH.
    unfold Config.WithLogger.
    cbn [Config.logger Config.lis Config.closed].
    destruct ls as [|o ls]; [reflexivity |].
    change (last (l :: o :: ls) (Config.logger Logger s))
      with (last (o :: ls) (Config.logger Logger s)).
    rewrite (last_of_nonempty o ls l (Config.logger Logger s)).
    reflexivity.
Qed.

(** X24.  [NewServer] with any options made by [WithLogger] returns a
    server that has a logger, the one of the last option when that is
    not nil and the default one otherwise, no listener, and is not
    closed. *)
Theorem NewServer_always_has_a_logger :
  forall (Logger : Type) (default_logger : Logger)
         (ls : list (option Logger)),
    Config.NewServer Logger default_logger (map (Config.WithLogger Logger) ls)
    = Config.mk Logger
        (Some match last ls None with
              | Some l => l
              | None => default_logger
              end)
        None false.
Proof.
  intros Logger default_logger ls. unfold Config.NewServer.
  rewrite options_fold. cbn.
  destruct (last ls None); reflexivity.
Qed.

(** ** Instances of the properties that have hypotheses *)

Ltac not_in_bytes :=
  let H := fresh in
  intros H; cbn in H;
  repeat (destruct H as [H | H]; [discriminate H |]); exact H.

Lemma unknown_command_is_refused_witness :
  ((9 <= List.length [x04; x03; x00; x50; x07; x07; x07; x07; x00])%nat /\
   idx [x04; x03; x00; x50; x07; x07; x07; x07; x00] 0 = x04 /\
   idx [x04; x03; x00; x50; x07; x07; x07; x07; x00] 1 <> x01 /\
   idx [x04; x03; x00; x50; x07; x07; x07; x07; x00] 1 <> x02) /\
  snd (ParseRequest [x04; x03; x00; x50; x07; x07; x07; x07; x00])
  = Some UnsupportedCommand /\
  fst (ParseRequest [x04; x03; x00; x50; x07; x07; x07; x07; x00])
  = Request.mk x04 x00 0 "" false "".
Proof.
  split.
  - split; [cbn; lia |]. split; [reflexivity |].
    split; cbn; discriminate.
  - apply (unknown_command_is_refused
             [x04; x03; x00; x50; x07; x07; x07; x07; x00]).
    + cbn. lia.
    + reflexivity.
    + cbn. discriminate.
    + cbn. discriminate.
Defined.

Lemma decoder_errors_are_the_four_witness :
  snd (ParseRequest [x04; x01; x00; x50; x00; x00; x00; x01; x61; x00])
  = Some MalformedExtendedRequest /\
  (MalformedExtendedRequest = MalformedRequest \/
   MalformedExtendedRequest = UnsupportedVersion \/
   MalformedExtendedRequest = UnsupportedCommand \/
   MalformedExtendedRequest = MalformedExtendedRequest).
Proof.
  split; [reflexivity |].
  apply (decoder_errors_are_the_four
           [x04; x01; x00; x50; x00; x00; x00; x01; x61; x00]).
  reflexivity.
Defined.

Lemma decoded_request_is_well_formed_witness :
  ParseRequest Fixture.connect8 = (Scenario.request8, None) /\
  Request.Version Scenario.request8 = x04 /\
  (Request.Cmd Scenario.request8 = x01 \/
   Request.Cmd Scenario.request8 = x02) /\
  Request.Cmd Scenario.request8 = idx Fixture.connect8 1 /\
  0 <= Request.Port Scenario.request8 <= 65535 /\
  (Request.IsV4A Scenario.request8 = true
   <-> extension_sentinel Fixture.connect8) /\
  exists host : string,
    Request.Address Scenario.request8
    = (host ++ ":" ++ Itoa (Request.Port Scenario.request8))%string.
Proof.
  split; [reflexivity |].
  apply (decoded_request_is_well_formed Fixture.connect8 Scenario.request8).
  reflexivity.
Defined.

Lemma extension_layout_is_decoded_witness :
  (List.length [x04; x01; x01; xbb; x00; x00; x00; x01] = 8%nat /\
   idx [x04; x01; x01; xbb; x00; x00; x00; x01] 0 = x04 /\
   (idx [x04; x01; x01; xbb; x00; x00; x00; x01] 1 = x01 \/
    idx [x04; x01; x01; xbb; x00; x00; x00; x01] 1 = x02) /\
   extension_sentinel [x04; x01; x01; xbb; x00; x00; x00; x01] /\
   ~ In x00 [x61] /\
   ~ In x00 [x67; x6f; x2e; x64; x65; x76] /\
   ~ In x00 [x7a; x7a]) /\
  ParseRequest
    ([x04; x01; x01; xbb; x00; x00; x00; x01] ++ [x61]
     ++ x00 :: [x67; x6f; x2e; x64; x65; x76] ++ x00 :: [x7a; x7a])
  = (Request.mk x04 (idx [x04; x01; x01; xbb; x00; x00; x00; x01] 1)
       (wire_port [x04; x01; x01; xbb; x00; x00; x00; x01])
       (string_of_bytes [x67; x6f; x2e; x64; x65; x76] ++ ":"
        ++ Itoa (wire_port [x04; x01; x01; xbb; x00; x00; x00; x01]))
       true
       (string_of_bytes [x61]),
     None).
Proof.
  assert (S : extension_sentinel [x04; x01; x01; xbb; x00; x00; x00; x01]).
  { repeat split. cbn. discriminate. }
  split.
  - split; [reflexivity |]. split; [reflexivity |].
    split; [left; reflexivity |]. split; [exact S |].
    split; [not_in_bytes |]. split; not_in_bytes.
  - apply (extension_layout_is_decoded
             [x04; x01; x01; xbb; x00; x00; x00; x01] [x61]
             [x67; x6f; x2e; x64; x65; x76] [x7a; x7a]).
    + reflexivity.
    + reflexivity.
    + left. reflexivity.
    + exact S.
    + not_in_bytes.
    + not_in_bytes.
    + not_in_bytes.
Defined.

Lemma decoded_extension_fields_are_delimited_witness :
  (extension_sentinel
     [x04; x01; x01; xbb; x00; x00; x00; x01; x61; x00;
      x67; x6f; x2e; x64; x65; x76; x00] /\
   ParseRequest
     [x04; x01; x01; xbb; x00; x00; x00; x01; x61; x00;
      x67; x6f; x2e; x64; x65; x76; x00]
   = (Request.mk x04 x01 443 "go.dev:443" true "a", None)) /\
  exists identity domainName trailing : list byte,
    skipn 8 [x04; x01; x01; xbb; x00; x00; x00; x01; x61; x00;
             x67; x6f; x2e; x64; x65; x76; x00]
    = identity ++ x00 :: domainName ++ x00 :: trailing /\
    ~ In x00 identity /\ ~ In x00 domainName /\ ~ In x00 trailing /\
    Request.UserId (Request.mk x04 x01 443 "go.dev:443" true "a")
    = string_of_bytes identity /\
    Request.Address (Request.mk x04 x01 443 "go.dev:443" true "a")
    = (string_of_bytes domainName ++ ":"
       ++ Itoa (Request.Port (Request.mk x04 x01 443 "go.dev:443" true "a")))%string.
Proof.
  assert (S : extension_sentinel
                [x04; x01; x01; xbb; x00; x00; x00; x01; x61; x00;
                 x67; x6f; x2e; x64; x65; x76; x00]).
  { repeat split. cbn. discriminate. }
  split.
  - split; [exact S | reflexivity].
  - apply (decoded_extension_fields_are_delimited
             [x04; x01; x01; xbb; x00; x00; x00; x01; x61; x00;
              x67; x6f; x2e; x64; x65; x76; x00]
             (Request.mk x04 x01 443 "go.dev:443" true "a") S).
    reflexivity.
Defined.

Lemma bind_listener_is_always_closed_witness :
  listen Fixture.net "" = inl 3%nat /\
  exists es : list Event,
    trace (snd (establishBind Fixture.net (Some 4%nat) Scenario.request_bind
                  Fixture.world))
    = trace Fixture.world ++ EvListen "" (inl 3%nat) :: es ++ [EvCloseLis 3%nat] /\
    weight listens es = 0%nat /\
    (forall msg : string,
        fst (establishBind Fixture.net (Some 4%nat) Scenario.request_bind
               Fixture.world) <> Crash msg).
Proof.
  split; [reflexivity |].
  apply (bind_listener_is_always_closed Fixture.net (Some 4%nat)
           Scenario.request_bind Fixture.world 3%nat).
  reflexivity.
Defined.

Lemma Run_returns_only_after_ShutDown_witness :
  (listen Fixture.net ":1080" = inl 3%nat /\
   ~ In ShutDownCalled [Incoming 2%nat; AcceptError "reset"; Incoming 4%nat]) /\
  (fst (Run Fixture.net ":1080"
          [Incoming 2%nat; AcceptError "reset"; Incoming 4%nat] Fixture.world)
   = Done Accepting \/
   exists msg : string,
     fst (Run Fixture.net ":1080"
            [Incoming 2%nat; AcceptError "reset"; Incoming 4%nat] Fixture.world)
     = Crash msg).
Proof.
  assert (NS : ~ In ShutDownCalled
                 [Incoming 2%nat; AcceptError "reset"; Incoming 4%nat]).
  { intros H. cbn in H.
    repeat (destruct H as [H | H]; [discriminate H |]). exact H. }
  split.
  - split; [reflexivity | exact NS].
  - apply (Run_returns_only_after_ShutDown Fixture.net ":1080"
             [Incoming 2%nat; AcceptError "reset"; Incoming 4%nat]
             Fixture.world 3%nat eq_refl NS).
Defined.

Lemma Run_returns_after_ShutDown_witness :
  (listen Fixture.net ":1080" = inl 3%nat /\
   ~ In ShutDownCalled [Incoming 2%nat]) /\
  Run Fixture.net ":1080" ([Incoming 2%nat] ++ ShutDownCalled :: [Incoming 4%nat])
    Fixture.world
  = Run Fixture.net ":1080" ([Incoming 2%nat] ++ [ShutDownCalled]) Fixture.world /\
  ((fst (Run Fixture.net ":1080"
           ([Incoming 2%nat] ++ ShutDownCalled :: [Incoming 4%nat])
           Fixture.world)
    = Done (Returned "listencer closed") /\
    srv_closed (snd (Run Fixture.net ":1080"
                       ([Incoming 2%nat] ++ ShutDownCalled :: [Incoming 4%nat])
                       Fixture.world))
    = true)
   \/ exists msg : string,
       fst (Run Fixture.net ":1080"
              ([Incoming 2%nat] ++ ShutDownCalled :: [Incoming 4%nat])
              Fixture.world)
       = Crash msg).
Proof.
  assert (NS : ~ In ShutDownCalled [Incoming 2%nat]).
  { intros H. cbn in H.
    repeat (destruct H as [H | H]; [discriminate H |]). exact H. }
  split.
  - split; [reflexivity | exact NS].
  - apply (Run_returns_after_ShutDown Fixture.net ":1080" [Incoming 2%nat]
             [Incoming 4%nat] Fixture.world 3%nat eq_refl NS).
Defined.

Lemma undecodable_request_gets_no_reply_witness :
  (inbox Fixture.world 9%nat = [] \/
   (exists f fs e, inbox Fixture.world 9%nat = f :: fs /\
                   snd (ParseRequest (firstn 41 f)) = Some e)) /\
  exists (res : list byte + error) (logs : list Event),
    fst (handleConn Fixture.net (Some 9%nat) Fixture.world) = Done tt /\
    trace (snd (handleConn Fixture.net (Some 9%nat) Fixture.world))
    = trace Fixture.world ++ EvRead 9%nat 41 res :: logs
      ++ [EvWgDone; EvCloseConn 9%nat] /\
    Forall is_log logs /\
    sent_to 9%nat (trace (snd (handleConn Fixture.net (Some 9%nat)
                                 Fixture.world)))
    = sent_to 9%nat (trace Fixture.world).
Proof.
  split; [left; reflexivity |].
  apply (undecodable_request_gets_no_reply Fixture.net 9%nat Fixture.world).
  left. reflexivity.
Defined.

Lemma connect_session_relays_and_releases_witness :
  (inbox Fixture.world 2%nat = [Fixture.connect8] /\
   ParseRequest (firstn 41 Fixture.connect8) = (Scenario.request8, None) /\
   Request.Cmd Scenario.request8 = CmdConnect /\
   dial Fixture.net (Request.Address Scenario.request8) = inl 7%nat /\
   local_addr Fixture.net 7%nat = inl Scenario.local /\
   write_err Fixture.net 2%nat (writes_on 2%nat (trace Fixture.world)) = None) /\
  exists w',
    handleConn Fixture.net (Some 2%nat) Fixture.world = (Done tt, w') /\
    trace w' = trace Fixture.world ++
      [EvRead 2%nat 41 (inl (firstn 41 Fixture.connect8));
       EvLog Debug "read request from client %v: %v";
       EvDial (Request.Address Scenario.request8) (inl 7%nat);
       EvWrite 2%nat
         (Reply.ToBytes
            (Reply.mk Granted (TCPAddr.Port Scenario.local)
               (To4 (TCPAddr.IP Scenario.local))))
         None;
       EvLog Info "proxy conn for client %v to target %v established";
       EvLog Info "begin transfer data between client %v and remote host %v";
       EvTransfer 2%nat 7%nat;
       EvLog Info "stop transfer data between client %v and remote host %v";
       EvCloseConn 7%nat;
       EvWgDone;
       EvCloseConn 2%nat].
Proof.
  split.
  - repeat split.
  - apply (connect_session_relays_and_releases Fixture.net 2%nat
             Fixture.world Fixture.connect8 [] Scenario.request8 7%nat
             Scenario.local); reflexivity.
Defined.

Lemma connect_late_failure_closes_the_peer_witness :
  (inbox Fixture.world 2%nat = [Fixture.connect8] /\
   ParseRequest (firstn 41 Fixture.connect8) = (Scenario.request8, None) /\
   Request.Cmd Scenario.request8 = CmdConnect /\
   dial Scenario.net_reply_lost (Request.Address Scenario.request8)
   = inl 7%nat /\
   (local_addr Scenario.net_reply_lost 7%nat = inr "broken pipe" \/
    (exists addr,
        local_addr Scenario.net_reply_lost 7%nat = inl addr /\
        write_err Scenario.net_reply_lost 2%nat
          (writes_on 2%nat (trace Fixture.world))
        = Some "broken pipe"))) /\
  exists (w' : World) (es : list Event),
    establishProxy Scenario.net_reply_lost (Some 2%nat) Fixture.world
    = (Done (None, Some "broken pipe"), w') /\
    trace w' = trace Fixture.world ++ es ++ [EvCloseConn 7%nat] /\
    weight transfers es = 0%nat /\
    sent_to 2%nat (trace w') = sent_to 2%nat (trace Fixture.world).
Proof.
  assert (K : local_addr Scenario.net_reply_lost 7%nat = inr "broken pipe" \/
              (exists addr,
                  local_addr Scenario.net_reply_lost 7%nat = inl addr /\
                  write_err Scenario.net_reply_lost 2%nat
                    (writes_on 2%nat (trace Fixture.world))
                  = Some "broken pipe")).
  { right. exists Scenario.local. split; reflexivity. }
  split.
  - repeat split. exact K.
  - apply (connect_late_failure_closes_the_peer Scenario.net_reply_lost 2%nat
             Fixture.world Fixture.connect8 [] Scenario.request8 7%nat
             "broken pipe"); try reflexivity.
    exact K.
Defined.

Lemma bind_session_sends_two_replies_witness :
  (inbox Fixture.world 4%nat = [Fixture.bind1] /\
   ParseRequest (firstn 41 Fixture.bind1) = (Scenario.request_bind, None) /\
   Request.Cmd Scenario.request_bind = CmdBind /\
   listen Scenario.net_inbound "" = inl 3%nat /\
   lis_addr Scenario.net_inbound 3%nat = inl Scenario.listening /\
   inbound Scenario.net_inbound 3%nat = Some 8%nat /\
   local_addr Scenario.net_inbound 8%nat = inl Scenario.local /\
   write_err Scenario.net_inbound 4%nat (writes_on 4%nat (trace Fixture.world))
   = None /\
   write_err Scenario.net_inbound 4%nat
     (S (writes_on 4%nat (trace Fixture.world)))
   = None) /\
  exists w',
    handleConn Scenario.net_inbound (Some 4%nat) Fixture.world = (Done tt, w') /\
    trace w' = trace Fixture.world ++
      [EvRead 4%nat 41 (inl (firstn 41 Fixture.bind1));
       EvLog Debug "read request from client %v: %v";
       EvListen "" (inl 3%nat);
       EvWrite 4%nat
         (Reply.ToBytes
            (Reply.mk Granted (TCPAddr.Port Scenario.listening) []))
         None;
       EvGoTimer 3%nat 120;
       EvAccept 3%nat (inl 8%nat);
       EvCloseLis 3%nat;
       EvWrite 4%nat
         (Reply.ToBytes
            (Reply.mk Granted (TCPAddr.Port Scenario.local)
               (To4 (TCPAddr.IP Scenario.local))))
         None;
       EvLog Info "proxy conn for client %v to target %v established";
       EvLog Info "begin transfer data between client %v and remote host %v";
       EvTransfer 4%nat 8%nat;
       EvLog Info "stop transfer data between client %v and remote host %v";
       EvCloseConn 8%nat;
       EvWgDone;
       EvCloseConn 4%nat] /\
    sent_to 4%nat (trace w') = sent_to 4%nat (trace Fixture.world) ++
      [Reply.ToBytes (Reply.mk Granted (TCPAddr.Port Scenario.listening) []);
       Reply.ToBytes
         (Reply.mk Granted (TCPAddr.Port Scenario.local)
            (To4 (TCPAddr.IP Scenario.local)))].
Proof.
  split.
  - repeat split.
  - apply (bind_session_sends_two_replies Scenario.net_inbound 4%nat
             Fixture.world Fixture.bind1 [] Scenario.request_bind 3%nat
             Scenario.listening 8%nat Scenario.local); reflexivity.
Defined.

Lemma bind_without_listener_is_rejected_witness :
  (inbox Fixture.world 4%nat = [Fixture.bind1] /\
   ParseRequest (firstn 41 Fixture.bind1) = (Scenario.request_bind, None) /\
   Request.Cmd Scenario.request_bind = CmdBind /\
   listen Scenario.net_no_listen "" = inr "too many open files") /\
  exists w',
    establishProxy Scenario.net_no_listen (Some 4%nat) Fixture.world
    = (match write_err Scenario.net_no_listen 4%nat
               (writes_on 4%nat (trace Fixture.world)) with
       | None =>
           Done (None,
                 Some ("failed to establish connect for BIND request: "
                       ++ "too many open files")%string)
       | Some _ => Panic nil_dereference
       end,
       w') /\
    trace w' = trace Fixture.world ++
      [EvRead 4%nat 41 (inl (firstn 41 Fixture.bind1));
       EvLog Debug "read request from client %v: %v";
       EvListen "" (inr "too many open files");
       EvWrite 4%nat [x00; x5b; x00; x00]
         (write_err Scenario.net_no_listen 4%nat
            (writes_on 4%nat (trace Fixture.world)))].
Proof.
  split.
  - repeat split.
  - apply (bind_without_listener_is_rejected Scenario.net_no_listen 4%nat
             Fixture.world Fixture.bind1 [] Scenario.request_bind
             "too many open files"); reflexivity.
Defined.

Lemma oversized_extension_request_is_refused_witness :
  (List.length [x04; x01; x00; x50; x00; x00; x00; x01] = 8%nat /\
   idx [x04; x01; x00; x50; x00; x00; x00; x01] 0 = x04 /\
   (idx [x04; x01; x00; x50; x00; x00; x00; x01] 1 = x01 \/
    idx [x04; x01; x00; x50; x00; x00; x00; x01] 1 = x02) /\
   extension_sentinel [x04; x01; x00; x50; x00; x00; x00; x01] /\
   ~ In x00 [] /\
   ~ In x00 (list_byte_of_string "a-host-name-of-forty-bytes.example.com__") /\
   (41 < List.length
           ([x04; x01; x00; x50; x00; x00; x00; x01] ++ []
            ++ x00 :: list_byte_of_string
                        "a-host-name-of-forty-bytes.example.com__"
            ++ [x00]))%nat /\
   inbox (Fixture.world_long [Fixture.long_request]) 1%nat
   = ([x04; x01; x00; x50; x00; x00; x00; x01] ++ []
      ++ x00 :: list_byte_of_string "a-host-name-of-forty-bytes.example.com__"
      ++ [x00]) :: []) /\
  snd (ParseRequest
         ([x04; x01; x00; x50; x00; x00; x00; x01] ++ []
          ++ x00 :: list_byte_of_string
                      "a-host-name-of-forty-bytes.example.com__"
          ++ [x00]))
  = None /\
  fst (establishProxy Fixture.net (Some 1%nat)
         (Fixture.world_long [Fixture.long_request]))
  = Done (None, Some MalformedExtendedRequest).
Proof.
  assert (S : extension_sentinel [x04; x01; x00; x50; x00; x00; x00; x01]).
  { repeat split. cbn. discriminate. }
  assert (ND : ~ In x00 (list_byte_of_string
                           "a-host-name-of-forty-bytes.example.com__"))
    by not_in_bytes.
  assert (NI : ~ In x00 []) by (intros []).
  assert (Long : (41 < List.length
                         ([x04; x01; x00; x50; x00; x00; x00; x01] ++ []
                          ++ x00 :: list_byte_of_string
                                      "a-host-name-of-forty-bytes.example.com__"
                          ++ [x00]))%nat)
    by (cbn; lia).
  split.
  - split; [reflexivity |]. split; [reflexivity |].
    split; [left; reflexivity |]. split; [exact S |].
    split; [exact NI |]. split; [exact ND |]. split; [exact Long |].
    reflexivity.
  - apply (oversized_extension_request_is_refused Fixture.net 1%nat
             (Fixture.world_long [Fixture.long_request])
             [x04; x01; x00; x50; x00; x00; x00; x01] []
             (list_byte_of_string "a-host-name-of-forty-bytes.example.com__")
             []); try assumption; try reflexivity.
    left. reflexivity.
Defined.

Lemma oversized_literal_request_is_truncated_witness :
  (List.length [x04; x01; x00; x50; x07; x07; x07; x07] = 8%nat /\
   idx [x04; x01; x00; x50; x07; x07; x07; x07] 0 = x04 /\
   (idx [x04; x01; x00; x50; x07; x07; x07; x07] 1 = x01 \/
    idx [x04; x01; x00; x50; x07; x07; x07; x07] 1 = x02) /\
   ~ extension_sentinel [x04; x01; x00; x50; x07; x07; x07; x07] /\
   (41 <= List.length
            ([x04; x01; x00; x50; x07; x07; x07; x07]
             ++ list_byte_of_string "an-identity-of-forty-bytes-0123456789abc"
             ++ [x00]))%nat) /\
  ParseRequest
    (firstn 41
       ([x04; x01; x00; x50; x07; x07; x07; x07]
        ++ list_byte_of_string "an-identity-of-forty-bytes-0123456789abc"
        ++ [x00]))
  = (Request.mk x04 (idx [x04; x01; x00; x50; x07; x07; x07; x07] 1)
       (wire_port [x04; x01; x00; x50; x07; x07; x07; x07])
       (dotted [idx [x04; x01; x00; x50; x07; x07; x07; x07] 4;
                idx [x04; x01; x00; x50; x07; x07; x07; x07] 5;
                idx [x04; x01; x00; x50; x07; x07; x07; x07] 6;
                idx [x04; x01; x00; x50; x07; x07; x07; x07] 7] ++ ":"
        ++ Itoa (wire_port [x04; x01; x00; x50; x07; x07; x07; x07]))
       false
       (string_of_bytes
          (firstn 32
             (list_byte_of_string "an-identity-of-forty-bytes-0123456789abc"
              ++ [x00]))),
     None).
Proof.
  assert (S : ~ extension_sentinel [x04; x01; x00; x50; x07; x07; x07; x07])
    by (intros [E _]; cbn in E; discriminate).
  assert (Long : (41 <= List.length
                          ([x04; x01; x00; x50; x07; x07; x07; x07]
                           ++ list_byte_of_string
                                "an-identity-of-forty-bytes-0123456789abc"
                           ++ [x00]))%nat)
    by (cbn; lia).
  split.
  - split; [reflexivity |]. split; [reflexivity |].
    split; [left; reflexivity |]. split; [exact S | exact Long].
  - apply (oversized_literal_request_is_truncated
             [x04; x01; x00; x50; x07; x07; x07; x07]
             (list_byte_of_string "an-identity-of-forty-bytes-0123456789abc"
              ++ [x00])).
    + reflexivity.
    + reflexivity.
    + left. reflexivity.
    + exact S.
    + exact Long.
Defined.
